(** * DCGAN training orchestration (notebooks/02/dcgan/dcgan.py)

    A shallow embedding of the checkpoint store and of the training loop
    controller of [dcgan.py], and the properties of the specification that
    concern them.

    Conventions.
    - A Python [str] is a [string]: the bytes of its UTF-8 encoding, so
      [key_params.encode()] is the identity.  File names are ASCII, as
      [save_checkpoint] writes them.
    - A Python [int] is a [Z].
    - A Python exception is a value of [exn]; a call that may raise returns
      a [result].
    - A [dict] with string keys is a [gmap string _]; [os.listdir] returns
      the entries of a folder in an order of its own, which the model takes
      as the order of the list that represents the folder.
    - The tensor library, wandb, the clock and the random generator are
      parameters of the model (class [Torch]); what the program itself does
      with dicts, strings, integers, files and exceptions is modelled as
      Python does it. *)

From Stdlib Require Import ZArith QArith Ascii String List Lia Floats.
From stdpp Require Import base option list strings pretty gmap.

#[local] Open Scope string_scope.
#[local] Open Scope Z_scope.

(** ** Exceptions *)

Inductive exn : Type :=
| ValueError
| KeyError (key : string)
| TypeError
| ZeroDivisionError
| FileExistsError (path : string)
| FileNotFoundError (path : string)
| NotADirectoryError (path : string)
| IsADirectoryError (path : string)
| UnpicklingError (path : string).

Inductive result (A : Type) : Type :=
| Ok (a : A)
| Raise (e : exn).

Arguments Ok {A} a.
Arguments Raise {A} e.

Definition rbind {A B} (r : result A) (k : A -> result B) : result B :=
  match r with
  | Ok a => k a
  | Raise e => Raise e
  end.

Definition raises {A} (r : result A) : bool :=
  match r with Ok _ => false | Raise _ => true end.

(** ** Python strings *)

Module PyStr.

(** [s.split(sep)] for a one-character separator: never the empty list. *)
Fixpoint split (sep : ascii) (s : string) : list string :=
  match s with
  | EmptyString => [EmptyString]
  | String c s' =>
      if Ascii.eqb c sep then EmptyString :: split sep s'
      else match split sep s' with
           | f :: fs => String c f :: fs
           | [] => [String c EmptyString]
           end
  end.

(** [l[-1]] and [l[0]] on the lists [split] returns. *)
Definition last_field (l : list string) : string := List.last l EmptyString.
Definition first_field (l : list string) : string := List.hd EmptyString l.

Definition startswith (s pre : string) : bool := String.prefix pre s.

Definition endswith (s suf : string) : bool :=
  let n := String.length s in
  let m := String.length suf in
  (m <=? n)%nat && String.eqb (String.substring (n - m) m s) suf.

(** Py_ISSPACE: tab, line feed, vertical tab, form feed, carriage return,
    space. *)
Definition code (c : ascii) : Z := Z.of_N (N_of_ascii c).

Definition is_space (c : ascii) : bool :=
  let n := code c in
  ((9 <=? n) && (n <=? 13)) || (n =? 32).

Definition digit_val (c : ascii) : option Z :=
  let n := code c in
  if (48 <=? n) && (n <=? 57) then Some (n - 48) else None.

Fixpoint lstrip (s : string) : string :=
  match s with
  | String c s' => if is_space c then lstrip s' else s
  | EmptyString => EmptyString
  end.

Fixpoint all_space (s : string) : bool :=
  match s with
  | String c s' => is_space c && all_space s'
  | EmptyString => true
  end.

(** The digits after the first one: single underscores may separate
    digits; the scan stops at the first character that is neither. *)
Fixpoint scan_digits (acc : Z) (after_underscore : bool) (s : string)
  : option (Z * string) :=
  match s with
  | EmptyString => if after_underscore then None else Some (acc, EmptyString)
  | String c s' =>
      if Ascii.eqb c "_"%char then
        if after_underscore then None else scan_digits acc true s'
      else
        match digit_val c with
        | Some d => scan_digits (10 * acc + d) false s'
        | None => if after_underscore then None else Some (acc, s)
        end
  end.

(** [int(s)] in base 10 on an ASCII [str]: optional white space, an
    optional sign, digits, optional white space.  [None] is ValueError. *)
Definition python_int (s : string) : option Z :=
  let s1 := lstrip s in
  let '(sign, s2) :=
    match s1 with
    | String "+"%char r => (1, r)
    | String "-"%char r => (-1, r)
    | _ => (1, s1)
    end in
  match s2 with
  | String c r =>
      match digit_val c with
      | Some d =>
          match scan_digits d false r with
          | Some (v, rest) => if all_space rest then Some (sign * v) else None
          | None => None
          end
      | None => None
      end
  | EmptyString => None
  end.

Definition int (s : string) : result Z :=
  match python_int s with
  | Some z => Ok z
  | None => Raise ValueError
  end.

(** [str(n)] of an int. *)
Definition str_of_int (n : Z) : string := pretty n.

End PyStr.

(** ** [max(l, key=f)] *)

Section PyMax.
Context {A : Type} (key : A -> result Z).

(** The running maximum is replaced only by a strictly greater key, so the
    first of several maximal elements is the one returned. *)
Fixpoint max_loop (best : A) (kbest : Z) (l : list A) : result A :=
  match l with
  | [] => Ok best
  | y :: ys =>
      rbind (key y) (fun ky =>
        if ky >? kbest then max_loop y ky ys else max_loop best kbest ys)
  end.

Definition py_max (l : list A) : result A :=
  match l with
  | [] => Raise ValueError
  | x :: xs => rbind (key x) (fun kx => max_loop x kx xs)
  end.

End PyMax.

(** ** Latest-checkpoint selection (load_checkpoint, lines 158-163) *)

Definition is_ckpt_file (f : string) : bool :=
  PyStr.startswith f "ckpt_epoch_" && PyStr.endswith f ".pth".

(** [int(f.split("_")[-1].split(".")[0])] *)
Definition ckpt_key (f : string) : result Z :=
  PyStr.int
    (PyStr.first_field
       (PyStr.split "."%char (PyStr.last_field (PyStr.split "_"%char f)))).

Definition ckpt_files (listing : list string) : list string :=
  List.filter is_ckpt_file listing.

Definition latest_ckpt (files : list string) : result string :=
  py_max ckpt_key files.



(** ** SHA-256 (hashlib.sha256(...).hexdigest())

    FIPS 180-4 on 32-bit words kept as [Z] in [0, 2^32); the message is the
    byte string itself. *)

Module Sha256.

Definition w32 (x : Z) : Z := x mod 2 ^ 32.
Definition add32 (x y : Z) : Z := w32 (x + y).
Definition rotr (n x : Z) : Z :=
  Z.lor (Z.shiftr x n) (w32 (Z.shiftl x (32 - n))).

Definition Ch (x y z : Z) : Z := Z.lxor (Z.land x y) (Z.ldiff z x).
Definition Maj (x y z : Z) : Z :=
  Z.lxor (Z.lxor (Z.land x y) (Z.land x z)) (Z.land y z).
Definition Sigma0 (x : Z) : Z :=
  Z.lxor (Z.lxor (rotr 2 x) (rotr 13 x)) (rotr 22 x).
Definition Sigma1 (x : Z) : Z :=
  Z.lxor (Z.lxor (rotr 6 x) (rotr 11 x)) (rotr 25 x).
Definition sigma0 (x : Z) : Z :=
  Z.lxor (Z.lxor (rotr 7 x) (rotr 18 x)) (Z.shiftr x 3).
Definition sigma1 (x : Z) : Z :=
  Z.lxor (Z.lxor (rotr 17 x) (rotr 19 x)) (Z.shiftr x 10).

(** The first 64 primes. *)
Definition is_prime (p : Z) : bool :=
  (1 <? p)
  && List.forallb (fun d => negb (p mod d =? 0))
       (List.map Z.of_nat (List.seq 2 (Z.to_nat p - 2))).

Definition primes : list Z :=
  List.filter is_prime (List.map Z.of_nat (List.seq 2 310)).

(** The integer cube root, bit by bit from the top. *)
Fixpoint cube_root (bits : nat) (n r : Z) : Z :=
  match bits with
  | O => r
  | S b =>
      let c := r + 2 ^ Z.of_nat b in
      if c * c * c <=? n then cube_root b n c else cube_root b n r
  end.

(** The round constants: the first 32 bits of the fractional parts of the
    cube roots of the first 64 primes; the initial hash value: the same of
    the square roots of the first 8. *)
Definition K : list Z :=
  List.map (fun p => w32 (cube_root 40 (p * 2 ^ 96) 0)) primes.

Definition H0 : list Z :=
  List.map (fun p => w32 (Z.sqrt (p * 2 ^ 64))) (List.firstn 8 primes).

Definition bytes_of (s : string) : list Z :=
  List.map (fun c => Z.of_nat (nat_of_ascii c)) (list_ascii_of_string s).

(** Big-endian bytes of [x], [n] of them. *)
Fixpoint be_bytes (n : nat) (x : Z) : list Z :=
  match n with
  | O => []
  | S n' => (Z.shiftr x (8 * Z.of_nat n')) mod 256 :: be_bytes n' x
  end.

(** The message, a 1 bit, zeros up to 56 modulo 64 bytes, and the length in
    bits on 64 bits. *)
Definition pad (msg : list Z) : list Z :=
  let len := Z.of_nat (List.length msg) in
  let zeros := Z.to_nat ((55 - len) mod 64) in
  msg ++ [0x80] ++ List.repeat 0 zeros ++ be_bytes 8 (8 * len).

Fixpoint words_of (n : nat) (bs : list Z) : list Z :=
  match n, bs with
  | S n', b0 :: b1 :: b2 :: b3 :: rest =>
      (b0 * 2 ^ 24 + b1 * 2 ^ 16 + b2 * 2 ^ 8 + b3) :: words_of n' rest
  | _, _ => []
  end.

(** One round: the state [a..h], the round constant and the schedule
    word. *)
Definition round (st : list Z) (k w : Z) : list Z :=
  match st with
  | [a; b; c; d; e; f; g; h] =>
      let t1 := add32 (add32 (add32 (add32 h (Sigma1 e)) (Ch e f g)) k) w in
      let t2 := add32 (Sigma0 a) (Maj a b c) in
      [add32 t1 t2; a; b; c; add32 d t1; e; f; g]
  | _ => st
  end.

(** The schedule is kept as the window of its last sixteen words: the head
    is W[t], and W[t+16] is appended. *)
Definition next_word (win : list Z) : Z :=
  add32 (add32 (add32 (sigma1 (List.nth 14 win 0)) (List.nth 9 win 0))
               (sigma0 (List.nth 1 win 0)))
        (List.nth 0 win 0).

Fixpoint rounds (ks : list Z) (win st : list Z) : list Z :=
  match ks with
  | [] => st
  | k :: ks' =>
      rounds ks' (List.tl win ++ [next_word win]) (round st k (List.nth 0 win 0))
  end.

Definition compress (h : list Z) (block : list Z) : list Z :=
  List.map (fun p => add32 (fst p) (snd p))
           (List.combine h (rounds K (words_of 16 block) h)).

Fixpoint blocks (n : nat) (bs : list Z) (h : list Z) : list Z :=
  match n with
  | O => h
  | S n' => blocks n' (List.skipn 64 bs) (compress h (List.firstn 64 bs))
  end.

Definition digest_words (s : string) : list Z :=
  let p := pad (bytes_of s) in
  blocks (List.length p / 64) p H0.

Definition hex_digit (d : Z) : ascii :=
  if (d <? 10)%Z then ascii_of_nat (Z.to_nat (48 + d))
  else ascii_of_nat (Z.to_nat (87 + d)).

Fixpoint hex_of (n : nat) (x : Z) : string :=
  match n with
  | O => EmptyString
  | S n' => String (hex_digit ((Z.shiftr x (4 * Z.of_nat n')) mod 16)) (hex_of n' x)
  end.

Definition hexdigest (s : string) : string :=
  List.fold_right (fun w acc => hex_of 8 w +:+ acc) EmptyString (digest_words s).




End Sha256.

(** ** Configuration values

    The values [yaml.safe_load] gives for scalars and sequences.  A float is
    an IEEE binary64 number together with the text [repr] renders it as
    (the shortest decimal that reads back as the same number); the model
    computes with the number and prints the text. *)

Record pyfloat : Type := PyFloat { fval : float; frepr : string }.

#[local] Set Warnings "-register-all".

Inductive value : Type :=
| VNone
| VBool (b : bool)
| VInt (n : Z)
| VFloat (x : pyfloat)
| VStr (s : string)
| VList (l : list value).

(** [bool] is a subclass of [int]. *)
Definition as_int (v : value) : option Z :=
  match v with
  | VBool b => Some (if b then 1 else 0)
  | VInt n => Some n
  | _ => None
  end.

(** [x == n] for a float and an int: the comparison is exact. *)
Definition float_eq_int (x : float) (n : Z) : bool :=
  match Prim2SF x with
  | S754_zero _ => n =? 0
  | S754_finite s m e =>
      let v := if s then Z.neg m else Z.pos m in
      if 0 <=? e then n =? v * 2 ^ e
      else (Z.pos m mod 2 ^ (- e) =? 0) && (n =? v / 2 ^ (- e))
  | _ => false
  end.

(** [a == b] *)
Fixpoint py_eq (a b : value) : bool :=
  match a, b with
  | VNone, VNone => true
  | VStr s, VStr t => String.eqb s t
  | VList l1, VList l2 =>
      (fix all_eq (l1 l2 : list value) : bool :=
         match l1, l2 with
         | [], [] => true
         | x :: xs, y :: ys => py_eq x y && all_eq xs ys
         | _, _ => false
         end) l1 l2
  | VFloat x, VFloat y => PrimFloat.eqb (fval x) (fval y)
  | VFloat x, _ =>
      match as_int b with Some n => float_eq_int (fval x) n | None => false end
  | _, VFloat y =>
      match as_int a with Some n => float_eq_int (fval y) n | None => false end
  | _, _ =>
      match as_int a, as_int b with
      | Some m, Some n => m =? n
      | _, _ => false
      end
  end.

(** [a != b] *)
Definition py_ne (a b : value) : bool := negb (py_eq a b).

(** [i % v == 0] for an int [i] (a batch or epoch index, below 2^53). *)
Definition py_mod_is_zero (i : Z) (v : value) : result bool :=
  match v with
  | VBool _ | VInt _ =>
      match as_int v with
      | Some n => if n =? 0 then Raise ZeroDivisionError else Ok (i mod n =? 0)
      | None => Raise TypeError
      end
  | VFloat x =>
      match Prim2SF (fval x) with
      | S754_zero _ => Raise ZeroDivisionError
      | S754_nan => Ok false
      | S754_infinity _ => Ok (i =? 0)
      | S754_finite _ m e =>
          Ok (if 0 <=? e then i mod (Z.pos m * 2 ^ e) =? 0
              else (i * 2 ^ (- e)) mod Z.pos m =? 0)
      end
  | _ => Raise TypeError
  end.

(** [repr(s)] of a [str]: single quotes, unless the text holds a single
    quote and no double quote; the quote, the backslash and the control
    characters are escaped. *)
Definition hex_byte (c : ascii) : string :=
  let n := Z.of_nat (nat_of_ascii c) in
  String (Sha256.hex_digit (n / 16)) (String (Sha256.hex_digit (n mod 16)) EmptyString).

Definition backslash : ascii := ascii_of_nat 92.
Definition double_quote : ascii := ascii_of_nat 34.
Definition single_quote : ascii := ascii_of_nat 39.

Definition escaped (c : ascii) : string := String backslash (String c EmptyString).

Definition escape_char (quote c : ascii) : string :=
  let n := nat_of_ascii c in
  if Ascii.eqb c quote then escaped c
  else if Ascii.eqb c backslash then escaped backslash
  else if (n =? 9)%nat then escaped "t"
  else if (n =? 10)%nat then escaped "n"
  else if (n =? 13)%nat then escaped "r"
  else if ((n <? 32)%nat || (n =? 127)%nat)%bool then escaped "x" +:+ hex_byte c
  else String c EmptyString.

Fixpoint has_char (c : ascii) (s : string) : bool :=
  match s with
  | EmptyString => false
  | String d s' => Ascii.eqb c d || has_char c s'
  end.

Fixpoint escape (quote : ascii) (s : string) : string :=
  match s with
  | EmptyString => EmptyString
  | String c s' => escape_char quote c +:+ escape quote s'
  end.

Definition repr_str (s : string) : string :=
  let quote :=
    if has_char single_quote s && negb (has_char double_quote s)
    then double_quote else single_quote in
  String quote (escape quote s +:+ String quote EmptyString).

Fixpoint join (sep : string) (l : list string) : string :=
  match l with
  | [] => EmptyString
  | [x] => x
  | x :: xs => x +:+ sep +:+ join sep xs
  end.

Fixpoint py_repr (v : value) : string :=
  match v with
  | VNone => "None"
  | VBool true => "True"
  | VBool false => "False"
  | VInt n => PyStr.str_of_int n
  | VFloat x => frepr x
  | VStr s => repr_str s
  | VList l => "[" +:+ join ", " (List.map py_repr l) +:+ "]"
  end.

(** [str(v)], which is what an f-string field [{v}] renders. *)
Definition py_str (v : value) : string :=
  match v with
  | VStr s => s
  | _ => py_repr v
  end.

(** ** The configuration: a dict with string keys *)

Abbreviation config := (gmap string value).

(** [config[k]] *)
Definition getitem (c : config) (k : string) : result value :=
  match c !! k with
  | Some v => Ok v
  | None => Raise (KeyError k)
  end.

(** [config.get(k, d)] and [config.get(k)] *)
Definition get_default (c : config) (k : string) (d : value) : value :=
  default d (c !! k).
Definition get (c : config) (k : string) : value := get_default c k VNone.

(** [set(a.keys()).union(b.keys())], iterated in the order [elements]
    gives (Python's order is unspecified). *)
Definition union_keys (a b : config) : list string :=
  elements (dom a ∪ dom b).

(** [a == b] on dicts: the same keys, each with equal values. *)
Definition dict_eq (a b : config) : bool :=
  forallb (fun k =>
             match a !! k, b !! k with
             | Some x, Some y => py_eq x y
             | _, _ => false
             end)
          (union_keys a b).

Definition dict_ne (a b : config) : bool := negb (dict_eq a b).

Definition float_0_0002 : pyfloat := PyFloat 0x1.a36e2eb1c432dp-13 "0.0002".




(** ** Run fingerprint and folder name (generate_checkpoint_folder, lines 105-110) *)

Definition key_params_of (lr bs latent ngf ndf : string) : string :=
  lr +:+ "_" +:+ bs +:+ "_" +:+ latent +:+ "_" +:+ ngf +:+ "_" +:+ ndf.

(** [hashlib.sha256(key_params.encode()).hexdigest()[:8]] *)
Definition config_hash_of (key_params : string) : string :=
  String.substring 0 8 (Sha256.hexdigest key_params).

Definition folder_name_of (lr bs latent ngf ndf hash : string) : string :=
  "dcgan_lr" +:+ lr +:+ "_bs" +:+ bs +:+ "_latent" +:+ latent
  +:+ "_ngf" +:+ ngf +:+ "_ndf" +:+ ndf +:+ "_" +:+ hash.

(** The f-string fields are read in the order written; a missing key is a
    KeyError. *)
Definition hyper_texts (c : config) : result (string * string * string * string * string) :=
  rbind (getitem c "lr") (fun lr =>
  rbind (getitem c "batch_size") (fun bs =>
  rbind (getitem c "latent_dim") (fun latent =>
  rbind (getitem c "ngf") (fun ngf =>
  rbind (getitem c "ndf") (fun ndf =>
  Ok (py_str lr, py_str bs, py_str latent, py_str ngf, py_str ndf)))))).

Definition key_params (c : config) : result string :=
  rbind (hyper_texts c) (fun '(lr, bs, latent, ngf, ndf) =>
  Ok (key_params_of lr bs latent ngf ndf)).

(** The run fingerprint. *)
Definition config_hash (c : config) : result string :=
  rbind (key_params c) (fun kp => Ok (config_hash_of kp)).

Definition folder_name (c : config) : result string :=
  rbind (hyper_texts c) (fun '(lr, bs, latent, ngf, ndf) =>
  Ok (folder_name_of lr bs latent ngf ndf
        (config_hash_of (key_params_of lr bs latent ngf ndf)))).

(** [os.path.join(a, b)] on POSIX. *)
Definition path_join (a b : string) : string :=
  if PyStr.startswith b "/" then b
  else if String.eqb a "" then b
  else if PyStr.endswith a "/" then a +:+ b
  else a +:+ "/" +:+ b.

Definition demo_config (batch_size : Z) : config :=
  <["lr" := VFloat float_0_0002]>
  (<["batch_size" := VInt batch_size]>
  (<["latent_dim" := VInt 100]>
  (<["ngf" := VInt 64]>
  (<["ndf" := VInt 64]> ∅)))).



(** ** Time stamps ([datetime.now().strftime("%Y%m%d_%H%M%S")]) *)

Record timestamp : Type :=
  Timestamp { year : nat; month : nat; day : nat;
              hour : nat; minute : nat; second : nat }.

(** A field of two digits ([%m], [%d], [%H], [%M], [%S]): the values are
    below 100. *)
Definition digit_char (d : nat) : ascii := ascii_of_N (48 + N.of_nat d).

Definition pad2 (n : nat) : string :=
  String (digit_char (n / 10)) (String (digit_char (n mod 10)) EmptyString).

(** The year of a clock reading has four digits. *)
Definition strftime (t : timestamp) : string :=
  pretty (year t) +:+ pad2 (month t) +:+ pad2 (day t) +:+ "_"
  +:+ pad2 (hour t) +:+ pad2 (minute t) +:+ pad2 (second t).

(** [f"ckpt_epoch_{epoch}_{timestamp}.pth"] *)
Definition checkpoint_filename (epoch : Z) (t : timestamp) : string :=
  "ckpt_epoch_" +:+ PyStr.str_of_int epoch +:+ "_" +:+ strftime t +:+ ".pth".


(** ** The training state and the effects of the program *)

Inductive module_id : Type := Gen | Disc.
Inductive opt_id : Type := OptG | OptD.

Definition module_eqb (a b : module_id) : bool :=
  match a, b with
  | Gen, Gen | Disc, Disc => true
  | _, _ => false
  end.

(** The tensor library, taken as given: tensors, the parameters and the
    buffers (batch-norm running statistics) of a module, gradients, the
    state of an Adam optimizer and the state of the random generator. *)
Class TensorTypes : Type :=
  { tensor : Type; weights : Type; stats : Type;
    gradient : Type; opt_state : Type; rng : Type }.

Section Autograd.
Context `{TensorTypes}.

(** The history autograd records for a tensor: which modules' parameters it
    was computed from, and with which values.  A leaf has no history. *)
Inductive tape : Type :=
| Leaf (x : tensor)
| Through (m : module_id) (w : weights) (s : stats) (input : tape)
| BceOf (input : tape) (target : tensor)
| Mean2 (a b : tape).

Fixpoint reaches (m : module_id) (t : tape) : bool :=
  match t with
  | Leaf _ => false
  | Through m' _ _ input => module_eqb m m' || reaches m input
  | BceOf input _ => reaches m input
  | Mean2 a b => reaches m a || reaches m b
  end.

Record tracked (A : Type) : Type := Tracked { data : A; hist : tape }.

End Autograd.

Arguments Tracked {_ A} data hist.
Arguments data {_ A} t.
Arguments hist {_ A} t.

(** The operations of the library and of the environment.  They are total:
    the errors torch raises on arguments of the wrong shape or type are
    outside the model.  Loss values are exact rationals: the rounding of
    float arithmetic is not modelled. *)
Class Torch `{TensorTypes} : Type :=
  { (** [imgs.size(0)], [torch.ones(n)], [torch.zeros(n)] *)
    batch_len : tensor -> nat;
    ones : nat -> tensor;
    zeros : nat -> tensor;
    (** [torch.randn(a, b, 1, 1)] *)
    randn : rng -> value -> value -> tensor * rng;
    (** a module called in training mode returns its output and its updated
        buffers; in evaluation mode it leaves the buffers alone *)
    forward_train : module_id -> weights -> stats -> tensor -> tensor * stats;
    forward_eval : module_id -> weights -> stats -> tensor -> tensor;
    (** [F.binary_cross_entropy(input, target)] *)
    binary_cross_entropy : tensor -> tensor -> Q;
    (** the gradient of a loss with respect to the parameters of a module,
        its accumulation into [.grad], and one Adam update *)
    backprop : module_id -> tape -> gradient;
    accumulate : option gradient -> gradient -> gradient;
    adam : opt_state -> weights -> option gradient -> opt_state * weights;
    (** [torchvision.utils.make_grid] *)
    make_grid : tensor -> tensor;
    (** the n-th reading of [datetime.datetime.now()] *)
    clock : nat -> timestamp;
    (** the id wandb gives a run started without one *)
    wandb_new_id : nat -> string }.

Section Model.
Context `{Torch}.

(** [x.detach()] *)
Definition detach (x : tracked tensor) : tracked tensor :=
  Tracked (data x) (Leaf (data x)).

Record net : Type :=
  Net { net_weights : weights; net_stats : stats;
        net_grad : option gradient; net_training : bool }.

Record optimizer : Type :=
  Optimizer { opt_target : module_id; opt_data : opt_state }.

(** The dict [torch.save] pickles; a key may be missing from a file that
    [save_checkpoint] did not write. *)
Record state_dict : Type :=
  StateDict {
    st_epoch : option Z;
    st_global_step : option Z;
    st_generator : option (weights * stats);
    st_discriminator : option (weights * stats);
    st_optimizer_g : option opt_state;
    st_optimizer_d : option opt_state;
    st_wandb_run_id : option string;
    st_config : option config }.

(** A directory entry: a pickled state, a subdirectory, or any other file
    ([torch.load] fails on the last two). *)
Inductive file : Type :=
| Pickle (st : state_dict)
| SubDir
| Other.

(** What a path names: a directory with its entries in [os.listdir] order,
    or something that is not a directory.  Distinct path strings are
    distinct paths, and intermediate directories are not tracked. *)
Inductive node : Type :=
| Dir (entries : list (string * file))
| NotDir.

Inductive log_event : Type :=
| FolderCreated (path : string)
| CheckpointSaved (epoch : Z) (path : string)
| ConfigSaved (path : string)
| NoCheckpointFound
| ConfigDifferences
| KeyDifference (key : string) (checkpoint current : value)
| ConfigMismatch
| CheckpointLoaded (path : string) (start_epoch global_step : Z)
| EpochFinished (epoch : Z) (avg_g_loss avg_d_loss : Q)
| RunFinished.

Inductive wandb_event : Type :=
| WInit (run_id : option string) (name : value)
| WBatch (g_loss d_loss : Q) (epoch batch step : Z)
| WEpoch (avg_g_loss avg_d_loss : Q) (epoch step : Z)
| WImages (grid : tensor) (step : Z)
| WArtifact (name : string)
| WFinish.

Record world : Type :=
  World {
    generator : net;
    discriminator : net;
    optimizer_g : optimizer;
    optimizer_d : optimizer;
    torch_rng : rng;
    fs : gmap string node;
    ticks : nat;
    handlers : list string;
    logged : list log_event;
    wandb_run : option string;
    wandb : list wandb_event }.

Definition get_net (m : module_id) (w : world) : net :=
  match m with Gen => generator w | Disc => discriminator w end.

Definition set_net (m : module_id) (n : net) (w : world) : world :=
  match m with
  | Gen => World n (discriminator w) (optimizer_g w) (optimizer_d w)
             (torch_rng w) (fs w) (ticks w) (handlers w) (logged w)
             (wandb_run w) (wandb w)
  | Disc => World (generator w) n (optimizer_g w) (optimizer_d w)
              (torch_rng w) (fs w) (ticks w) (handlers w) (logged w)
              (wandb_run w) (wandb w)
  end.

Definition get_opt (o : opt_id) (w : world) : optimizer :=
  match o with OptG => optimizer_g w | OptD => optimizer_d w end.

Definition set_opt (o : opt_id) (x : optimizer) (w : world) : world :=
  match o with
  | OptG => World (generator w) (discriminator w) x (optimizer_d w)
              (torch_rng w) (fs w) (ticks w) (handlers w) (logged w)
              (wandb_run w) (wandb w)
  | OptD => World (generator w) (discriminator w) (optimizer_g w) x
              (torch_rng w) (fs w) (ticks w) (handlers w) (logged w)
              (wandb_run w) (wandb w)
  end.

Definition set_rng (r : rng) (w : world) : world :=
  World (generator w) (discriminator w) (optimizer_g w) (optimizer_d w)
    r (fs w) (ticks w) (handlers w) (logged w) (wandb_run w) (wandb w).

Definition set_fs (f : gmap string node) (w : world) : world :=
  World (generator w) (discriminator w) (optimizer_g w) (optimizer_d w)
    (torch_rng w) f (ticks w) (handlers w) (logged w) (wandb_run w) (wandb w).

Definition set_ticks (n : nat) (w : world) : world :=
  World (generator w) (discriminator w) (optimizer_g w) (optimizer_d w)
    (torch_rng w) (fs w) n (handlers w) (logged w) (wandb_run w) (wandb w).

Definition set_handlers (h : list string) (w : world) : world :=
  World (generator w) (discriminator w) (optimizer_g w) (optimizer_d w)
    (torch_rng w) (fs w) (ticks w) h (logged w) (wandb_run w) (wandb w).

Definition set_logged (l : list log_event) (w : world) : world :=
  World (generator w) (discriminator w) (optimizer_g w) (optimizer_d w)
    (torch_rng w) (fs w) (ticks w) (handlers w) l (wandb_run w) (wandb w).

Definition set_wandb_run (r : option string) (w : world) : world :=
  World (generator w) (discriminator w) (optimizer_g w) (optimizer_d w)
    (torch_rng w) (fs w) (ticks w) (handlers w) (logged w) r (wandb w).

Definition set_wandb (l : list wandb_event) (w : world) : world :=
  World (generator w) (discriminator w) (optimizer_g w) (optimizer_d w)
    (torch_rng w) (fs w) (ticks w) (handlers w) (logged w) (wandb_run w) l.

(** *** The monad of the program: state, and exceptions that keep it *)

Definition M (A : Type) : Type := world -> result A * world.

Definition ret {A} (a : A) : M A := fun w => (Ok a, w).

Definition bind {A B} (m : M A) (k : A -> M B) : M B :=
  fun w =>
    match m w with
    | (Ok a, w') => k a w'
    | (Raise e, w') => (Raise e, w')
    end.

Definition lift {A} (r : result A) : M A := fun w => (r, w).
Definition modify (f : world -> world) : M unit := fun w => (Ok tt, f w).
Definition gets {A} (f : world -> A) : M A := fun w => (Ok (f w), w).

(** [try: m finally: h] *)
Definition finally {A} (m : M A) (h : M unit) : M A :=
  fun w =>
    match m w with
    | (r, w') =>
        match h w' with
        | (Ok _, w'') => (r, w'')
        | (Raise e, w'') => (Raise e, w'')
        end
    end.

#[local] Notation "x <~ m ;; k" := (bind m (fun x => k))
  (at level 90, m at level 89, right associativity).
#[local] Notation "m ;;; k" := (bind m (fun _ => k))
  (at level 90, right associativity).

(** [logger.info], [logger.warning], [wandb.log] and the like *)
Definition info (e : log_event) : M unit :=
  modify (fun w => set_logged (logged w ++ [e]) w).
Definition warning (e : log_event) : M unit := info e.
Definition wandb_emit (e : wandb_event) : M unit :=
  modify (fun w => set_wandb (wandb w ++ [e]) w).

(** [datetime.datetime.now()] *)
Definition now : M timestamp :=
  fun w => (Ok (clock (ticks w)), set_ticks (S (ticks w)) w).

(** *** The file system *)

(** [os.makedirs(path, exist_ok=True)] *)
Definition makedirs (path : string) : M unit :=
  fun w =>
    if String.eqb path "" then (Raise (FileNotFoundError path), w)
    else match fs w !! path with
         | Some (Dir _) => (Ok tt, w)
         | Some NotDir => (Raise (FileExistsError path), w)
         | None => (Ok tt, set_fs (<[path := Dir []]> (fs w)) w)
         end.

(** [os.path.exists(path)] *)
Definition path_exists (path : string) : M bool :=
  gets (fun w => bool_decide (is_Some (fs w !! path))).

Definition find_entry (name : string) (entries : list (string * file)) : option file :=
  option_map snd (List.find (fun e => String.eqb (fst e) name) entries).

(** The entry [name] gets the content [f]: in place when it exists, as a
    new entry otherwise. *)
Fixpoint put_entry (name : string) (f : file) (entries : list (string * file))
  : list (string * file) :=
  match entries with
  | [] => [(name, f)]
  | (n, g) :: rest =>
      if String.eqb n name then (n, f) :: rest
      else (n, g) :: put_entry name f rest
  end.

(** Opening [folder/name] for writing ([torch.save], [open(path, "w")]):
    the content is replaced. *)
Definition write_file (folder name : string) (f : file) : M unit :=
  fun w =>
    match fs w !! folder with
    | Some (Dir entries) =>
        match find_entry name entries with
        | Some SubDir => (Raise (IsADirectoryError (path_join folder name)), w)
        | _ => (Ok tt, set_fs (<[folder := Dir (put_entry name f entries)]> (fs w)) w)
        end
    | Some NotDir => (Raise (NotADirectoryError (path_join folder name)), w)
    | None => (Raise (FileNotFoundError (path_join folder name)), w)
    end.

(** Opening [folder/name] for appending ([logging.FileHandler]): an
    existing file is kept. *)
Definition open_append (folder name : string) : M unit :=
  fun w =>
    match fs w !! folder with
    | Some (Dir entries) =>
        match find_entry name entries with
        | Some SubDir => (Raise (IsADirectoryError (path_join folder name)), w)
        | Some _ => (Ok tt, w)
        | None => (Ok tt, set_fs (<[folder := Dir (entries ++ [(name, Other)])]> (fs w)) w)
        end
    | Some NotDir => (Raise (NotADirectoryError (path_join folder name)), w)
    | None => (Raise (FileNotFoundError (path_join folder name)), w)
    end.

(** [os.listdir(folder)] *)
Definition listdir (folder : string) : M (list string) :=
  fun w =>
    match fs w !! folder with
    | Some (Dir entries) => (Ok (List.map fst entries), w)
    | Some NotDir => (Raise (NotADirectoryError folder), w)
    | None => (Raise (FileNotFoundError folder), w)
    end.

(** [torch.load(os.path.join(folder, name))] *)
Definition torch_load (folder name : string) : M state_dict :=
  fun w =>
    match fs w !! folder with
    | Some (Dir entries) =>
        match find_entry name entries with
        | Some (Pickle st) => (Ok st, w)
        | Some SubDir => (Raise (IsADirectoryError (path_join folder name)), w)
        | Some Other => (Raise (UnpicklingError (path_join folder name)), w)
        | None => (Raise (FileNotFoundError (path_join folder name)), w)
        end
    | Some NotDir => (Raise (NotADirectoryError (path_join folder name)), w)
    | None => (Raise (FileNotFoundError (path_join folder name)), w)
    end.

(** A path argument must be a [str]. *)
Definition as_path (v : value) : result string :=
  match v with
  | VStr s => Ok s
  | _ => Raise TypeError
  end.

(** *** generate_checkpoint_folder (lines 103-122) *)

(** [config.get("checkpoint_dir", "checkpoints")], as [os.makedirs] takes
    it. *)
Definition checkpoint_dir (c : config) : result string :=
  as_path (get_default c "checkpoint_dir" (VStr "checkpoints")).

Definition generate_checkpoint_folder (c : config) : M string :=
  kp <~ lift (key_params c) ;;
  let config_hash := config_hash_of kp in
  base_path <~ lift (checkpoint_dir c) ;;
  makedirs base_path ;;;
  texts <~ lift (hyper_texts c) ;;
  let '(lr, bs, latent, ngf, ndf) := texts in
  let folder_name := folder_name_of lr bs latent ngf ndf config_hash in
  let folder_path := path_join base_path folder_name in
  makedirs folder_path ;;;
  let log_file := path_join folder_path "experiment.log" in
  open_append folder_path "experiment.log" ;;;
  modify (fun w => set_handlers (handlers w ++ [log_file]) w) ;;;
  info (FolderCreated folder_path) ;;;
  ret folder_path.

(** *** save_checkpoint (lines 128-153) *)

Definition module_state (n : net) : weights * stats :=
  (net_weights n, net_stats n).

(** The dict [state] of line 132. *)
Definition checkpoint_state (w : world) (epoch global_step : Z) (c : config)
  : state_dict :=
  StateDict (Some epoch) (Some global_step)
    (Some (module_state (generator w))) (Some (module_state (discriminator w)))
    (Some (opt_data (optimizer_g w))) (Some (opt_data (optimizer_d w)))
    (wandb_run w) (Some c).

Definition save_checkpoint (folder : string) (epoch global_step : Z) (c : config)
  : M unit :=
  t <~ now ;;
  let timestamp := strftime t in
  let checkpoint_filename := checkpoint_filename epoch t in
  let checkpoint_path := path_join folder checkpoint_filename in
  state <~ gets (fun w => checkpoint_state w epoch global_step c) ;;
  write_file folder checkpoint_filename (Pickle state) ;;;
  info (CheckpointSaved epoch checkpoint_path) ;;;
  let config_path := path_join folder "config.yaml" in
  write_file folder "config.yaml" Other ;;;
  info (ConfigSaved config_path) ;;;
  wandb_emit (WArtifact ("model-checkpoint-epoch-" +:+ PyStr.str_of_int epoch
                         +:+ "-" +:+ timestamp)).

(** *** load_checkpoint (lines 156-189) *)

(** [module.load_state_dict(sd)]: parameters and buffers are replaced. *)
Definition load_module (m : module_id) (sd : weights * stats) : M unit :=
  modify (fun w =>
    let n := get_net m w in
    set_net m (Net (fst sd) (snd sd) (net_grad n) (net_training n)) w).

(** [optimizer.load_state_dict(sd)] *)
Definition load_optimizer (o : opt_id) (sd : opt_state) : M unit :=
  modify (fun w => set_opt o (Optimizer (opt_target (get_opt o w)) sd) w).

(** [state[k]] *)
Definition require {A} (field : option A) (k : string) : M A :=
  match field with
  | Some a => ret a
  | None => lift (Raise (KeyError k))
  end.

(** The keys whose values differ, an absent key being read as [None]
    (lines 172-173). *)
Definition differing_keys (checkpoint_config current_config : config) : list string :=
  List.filter
    (fun key => py_ne (get checkpoint_config key) (get current_config key))
    (union_keys checkpoint_config current_config).

Fixpoint warn_differences (checkpoint_config current_config : config)
  (keys : list string) : M unit :=
  match keys with
  | [] => ret tt
  | key :: rest =>
      warning (KeyDifference key (get checkpoint_config key) (get current_config key)) ;;;
      warn_differences checkpoint_config current_config rest
  end.

Definition load_checkpoint (folder : string) (current_config : config)
  : M (Z * Z * option string) :=
  listing <~ listdir folder ;;
  let ckpt_files := ckpt_files listing in
  match ckpt_files with
  | [] =>
      info NoCheckpointFound ;;;
      ret (0, 0, None)
  | _ =>
      latest_ckpt <~ lift (latest_ckpt ckpt_files) ;;
      let checkpoint_path := path_join folder latest_ckpt in
      state <~ torch_load folder latest_ckpt ;;
      let checkpoint_config := default ∅ (st_config state) in
      if dict_ne checkpoint_config current_config then
        warning ConfigDifferences ;;;
        warn_differences checkpoint_config current_config
          (differing_keys checkpoint_config current_config) ;;;
        warning ConfigMismatch ;;;
        ret (0, 0, None)
      else
        g <~ require (st_generator state) "generator_state_dict" ;;
        load_module Gen g ;;;
        d <~ require (st_discriminator state) "discriminator_state_dict" ;;
        load_module Disc d ;;;
        og <~ require (st_optimizer_g state) "optimizer_g_state_dict" ;;
        load_optimizer OptG og ;;;
        od <~ require (st_optimizer_d state) "optimizer_d_state_dict" ;;
        load_optimizer OptD od ;;;
        epoch <~ require (st_epoch state) "epoch" ;;
        let start_epoch := epoch + 1 in
        let global_step := default 0 (st_global_step state) in
        let wandb_run_id := st_wandb_run_id state in
        info (CheckpointLoaded checkpoint_path start_epoch global_step) ;;;
        ret (start_epoch, global_step, wandb_run_id)
  end.

(** *** Modules, autograd and optimizers *)

(** [module.train()] and [module.eval()] *)
Definition set_training (m : module_id) (b : bool) : M unit :=
  modify (fun w =>
    let n := get_net m w in
    set_net m (Net (net_weights n) (net_stats n) (net_grad n) b) w).

(** [module(x)]: the output remembers the module it went through. *)
Definition call (m : module_id) (x : tracked tensor) : M (tracked tensor) :=
  fun w =>
    let n := get_net m w in
    let h := Through m (net_weights n) (net_stats n) (hist x) in
    if net_training n then
      let r := forward_train m (net_weights n) (net_stats n) (data x) in
      (Ok (Tracked (fst r) h),
       set_net m (Net (net_weights n) (snd r) (net_grad n) (net_training n)) w)
    else
      (Ok (Tracked (forward_eval m (net_weights n) (net_stats n) (data x)) h), w).

(** [module(x)] under [torch.no_grad()]: the output is a leaf. *)
Definition call_no_grad (m : module_id) (x : tensor) : M tensor :=
  y <~ call m (Tracked x (Leaf x)) ;;
  ret (data y).

Definition leaf (x : tensor) : tracked tensor := Tracked x (Leaf x).

Definition draw_randn (a b : value) : M (tracked tensor) :=
  fun w =>
    let r := randn (torch_rng w) a b in
    (Ok (leaf (fst r)), set_rng (snd r) w).

(** [F.binary_cross_entropy(p, target)] on a tracked input. *)
Definition bce (p : tracked tensor) (target : tensor) : tracked Q :=
  Tracked (binary_cross_entropy (data p) target) (BceOf (hist p) target).

(** [(a + b) / 2] *)
Definition half_sum (a b : tracked Q) : tracked Q :=
  Tracked ((data a + data b) / 2)%Q (Mean2 (hist a) (hist b)).

(** [loss.backward()]: every module the history reaches gets the gradient
    added to its [.grad]; the others are not touched. *)
Definition backward_into (m : module_id) (loss : tracked Q) : M unit :=
  modify (fun w =>
    if reaches m (hist loss) then
      let n := get_net m w in
      set_net m (Net (net_weights n) (net_stats n)
                    (Some (accumulate (net_grad n) (backprop m (hist loss))))
                    (net_training n)) w
    else w).

Definition backward (loss : tracked Q) : M unit :=
  backward_into Gen loss ;;;
  backward_into Disc loss.

(** [optimizer.zero_grad()] and [optimizer.step()] act on the parameters
    the optimizer was built on. *)
Definition zero_grad (o : opt_id) : M unit :=
  modify (fun w =>
    let m := opt_target (get_opt o w) in
    let n := get_net m w in
    set_net m (Net (net_weights n) (net_stats n) None (net_training n)) w).

Definition step (o : opt_id) : M unit :=
  modify (fun w =>
    let opt := get_opt o w in
    let m := opt_target opt in
    let n := get_net m w in
    let r := adam (opt_data opt) (net_weights n) (net_grad n) in
    set_opt o (Optimizer m (fst r))
      (set_net m (Net (snd r) (net_stats n) (net_grad n) (net_training n)) w)).

(** *** train_epoch (lines 195-258) *)

(** Lines 216-221. *)
Definition generator_step (c : config) (batch_size : nat) (valid : tensor)
  : M (tracked tensor * tracked Q) :=
  zero_grad OptG ;;;
  latent_dim <~ lift (getitem c "latent_dim") ;;
  noise <~ draw_randn (VInt (Z.of_nat batch_size)) latent_dim ;;
  gen_imgs <~ call Gen noise ;;
  score <~ call Disc gen_imgs ;;
  let g_loss := bce score valid in
  backward g_loss ;;;
  step OptG ;;;
  ret (gen_imgs, g_loss).

(** Lines 226-231. *)
Definition discriminator_step (imgs : tensor) (gen_imgs : tracked tensor)
  (valid fake : tensor) : M (tracked Q) :=
  zero_grad OptD ;;;
  score_real <~ call Disc (leaf imgs) ;;
  let real_loss := bce score_real valid in
  score_fake <~ call Disc (detach gen_imgs) ;;
  let fake_loss := bce score_fake fake in
  let d_loss := half_sum real_loss fake_loss in
  backward d_loss ;;;
  step OptD ;;;
  ret d_loss.

(** [config.get("log_interval", -1) != -1 and i % config["log_interval"] == 0] *)
Definition log_due (c : config) (i : Z) : result bool :=
  if py_ne (get_default c "log_interval" (VInt (-1))) (VInt (-1)) then
    rbind (getitem c "log_interval") (fun v => py_mod_is_zero i v)
  else Ok false.

(** The variables the loop carries. *)
Record counters : Type :=
  Counters { total_g_loss : Q; total_d_loss : Q; n_batches : Z; global_step : Z }.

(** The body of the loop (lines 205-246) for batch [i]. *)
Definition train_batch (c : config) (epoch i : Z) (imgs : tensor) (k : counters)
  : M counters :=
  let batch_size := batch_len imgs in
  let n_batches := n_batches k + 1 in
  let valid := ones batch_size in
  let fake := zeros batch_size in
  g <~ generator_step c batch_size valid ;;
  let '(gen_imgs, g_loss) := g in
  d_loss <~ discriminator_step imgs gen_imgs valid fake ;;
  let total_g_loss := (total_g_loss k + data g_loss)%Q in
  let total_d_loss := (total_d_loss k + data d_loss)%Q in
  due <~ lift (log_due c i) ;;
  (if due : bool
   then wandb_emit (WBatch (data g_loss) (data d_loss) epoch i (global_step k))
   else ret tt) ;;;
  ret (Counters total_g_loss total_d_loss n_batches (global_step k + 1)).

Fixpoint train_batches (c : config) (epoch i : Z) (batches : list tensor)
  (k : counters) : M counters :=
  match batches with
  | [] => ret k
  | imgs :: rest =>
      k' <~ train_batch c epoch i imgs k ;;
      train_batches c epoch (i + 1) rest k'
  end.

(** [total / n] for a float and an int. *)
Definition py_div (total : Q) (n : Z) : result Q :=
  if n =? 0 then Raise ZeroDivisionError else Ok (total / inject_Z n)%Q.

(** One pass over the data loader draws its shuffle from the random
    generator and yields the image batches. *)
Definition dataloader_type : Type := rng -> list tensor * rng.

Definition iterate (dataloader : dataloader_type) : M (list tensor) :=
  fun w =>
    let r := dataloader (torch_rng w) in
    (Ok (fst r), set_rng (snd r) w).

(** [step0] is the value of the argument [global_step] at the call. *)
Definition train_epoch (dataloader : dataloader_type) (c : config)
  (epoch step0 : Z) : M Z :=
  set_training Gen true ;;;
  set_training Disc true ;;;
  (* the description of the progress bar reads config['epochs'] *)
  _ <~ lift (getitem c "epochs") ;;
  batches <~ iterate dataloader ;;
  k <~ train_batches c epoch 0 batches (Counters 0 0 0 step0) ;;
  avg_g_loss <~ lift (py_div (total_g_loss k) (n_batches k)) ;;
  avg_d_loss <~ lift (py_div (total_d_loss k) (n_batches k)) ;;
  wandb_emit (WEpoch avg_g_loss avg_d_loss epoch (global_step k)) ;;;
  info (EpochFinished epoch avg_g_loss avg_d_loss) ;;;
  ret (global_step k).

(** *** evaluate (lines 264-271) *)

Definition evaluate (c : config) (step : Z) : M unit :=
  set_training Gen false ;;;
  num_eval_samples <~ lift (getitem c "num_eval_samples") ;;
  latent_dim <~ lift (getitem c "latent_dim") ;;
  noise <~ draw_randn num_eval_samples latent_dim ;;
  gen_imgs <~ call_no_grad Gen (data noise) ;;
  let grid := make_grid gen_imgs in
  wandb_emit (WImages grid step) ;;;
  set_training Gen true.

(** *** main (lines 316-342)

    Lines 303-314 build the modules, the optimizers ([optimizer_g] on the
    generator's parameters, [optimizer_d] on the discriminator's) and the
    data loader: they give the world and the loader [main] starts from. *)

(** [bool(v)] *)
Definition truthy (v : value) : bool :=
  match v with
  | VNone => false
  | VBool b => b
  | VInt n => negb (n =? 0)
  | VFloat x => negb (PrimFloat.eqb (fval x) 0)
  | VStr s => negb (String.eqb s "")
  | VList l => match l with [] => false | _ => true end
  end.

(** An argument of [range] must be an int. *)
Definition as_index (v : value) : result Z :=
  match as_int v with
  | Some n => Ok n
  | None => Raise TypeError
  end.

(** [range(a, b)] *)
Definition py_range (a b : Z) : list Z :=
  List.map (fun k => a + Z.of_nat k) (List.seq 0 (Z.to_nat (b - a))).

(** [epoch % config["checkpoint_interval"] == 0 or epoch == config["epochs"] - 1] *)
Definition checkpoint_due (c : config) (epoch : Z) : result bool :=
  rbind (getitem c "checkpoint_interval") (fun interval =>
  rbind (py_mod_is_zero epoch interval) (fun z =>
  if z : bool then Ok true
  else rbind (getitem c "epochs") (fun e =>
       rbind (as_index e) (fun n => Ok (epoch =? n - 1))))).

(** The loop of lines 334-339 over the epochs still to run. *)
Fixpoint epochs_loop (dataloader : dataloader_type) (c : config)
  (checkpoint_folder : string) (epochs : list Z) (global_step : Z) : M Z :=
  match epochs with
  | [] => ret global_step
  | epoch :: rest =>
      global_step <~ train_epoch dataloader c epoch global_step ;;
      due <~ lift (checkpoint_due c epoch) ;;
      (if due : bool
       then evaluate c global_step ;;;
            save_checkpoint checkpoint_folder epoch global_step c
       else ret tt) ;;;
      epochs_loop dataloader c checkpoint_folder rest global_step
  end.

(** generate_run_name (lines 294-296): the default is built before
    [config.get] looks the key up. *)
Definition generate_run_name (c : config) : M value :=
  t <~ now ;;
  lr <~ lift (getitem c "lr") ;;
  batch_size <~ lift (getitem c "batch_size") ;;
  ret (get_default c "run_name"
         (VStr ("DCGAN_CelebA_lr" +:+ py_str lr +:+ "_bs" +:+ py_str batch_size
                +:+ "_" +:+ strftime t))).

(** [wandb.init(..., resume="allow", id=run_id, ...)] and [wandb.finish()] *)
Definition wandb_init (run_id : option string) (name : value) : M unit :=
  modify (fun w =>
    set_wandb_run (Some (default (wandb_new_id (ticks w)) run_id)) w) ;;;
  wandb_emit (WInit run_id name).

Definition wandb_finish : M unit :=
  modify (set_wandb_run None) ;;;
  wandb_emit WFinish.

(** Lines 319-323. *)
Definition resume (c : config) (checkpoint_folder : string)
  : M (Z * Z * option string) :=
  found <~ path_exists checkpoint_folder ;;
  if (found : bool) && truthy (get_default c "resume_training" (VBool true))
  then load_checkpoint checkpoint_folder c
  else ret (0, 0, None).

Definition main (dataloader : dataloader_type) (c : config) : M unit :=
  checkpoint_folder <~ generate_checkpoint_folder c ;;
  r <~ resume c checkpoint_folder ;;
  let '(start_epoch, global_step, run_id) := r in
  run_name <~ generate_run_name c ;;
  _ <~ lift (getitem c "wandb_project") ;;
  wandb_init run_id run_name ;;;
  finally
    (e <~ lift (getitem c "epochs") ;;
     epochs <~ lift (as_index e) ;;
     _ <~ epochs_loop dataloader c checkpoint_folder
            (py_range start_epoch epochs) global_step ;;
     ret tt)
    (wandb_finish ;;;
     info RunFinished).

End Model.

(** ** Vocabulary of the properties *)

(** The five hyperparameters the fingerprint is made of. *)
Definition hyper_keys : list string := ["lr"; "batch_size"; "latent_dim"; "ngf"; "ndf"].

(** The texts of two configurations differ in exactly one of the five
    places. *)
Definition one_text_changed (a b : string * string * string * string * string) : Prop :=
  let '(a1, a2, a3, a4, a5) := a in
  let '(b1, b2, b3, b4, b5) := b in
  (a1 <> b1 /\ a2 = b2 /\ a3 = b3 /\ a4 = b4 /\ a5 = b5)
  \/ (a1 = b1 /\ a2 <> b2 /\ a3 = b3 /\ a4 = b4 /\ a5 = b5)
  \/ (a1 = b1 /\ a2 = b2 /\ a3 <> b3 /\ a4 = b4 /\ a5 = b5)
  \/ (a1 = b1 /\ a2 = b2 /\ a3 = b3 /\ a4 <> b4 /\ a5 = b5)
  \/ (a1 = b1 /\ a2 = b2 /\ a3 = b3 /\ a4 = b4 /\ a5 <> b5).

(** The folder path of line 111 for a base directory and the five texts. *)
Definition folder_path_of (base : string)
  (t : string * string * string * string * string) : string :=
  let '(lr, bs, latent, ngf, ndf) := t in
  path_join base
    (folder_name_of lr bs latent ngf ndf (config_hash_of (key_params_of lr bs latent ngf ndf))).



Section Vocabulary.
Context `{Torch}.

Definition is_dir (f : gmap string node) (path : string) : Prop :=
  exists entries, f !! path = Some (Dir entries).

Definition has_file (f : gmap string node) (folder name : string) : Prop :=
  exists entries x,
    f !! folder = Some (Dir entries) /\ find_entry name entries = Some x /\ x <> SubDir.

(** Nothing at [folder] stands in the way of a file [name] in it. *)
Definition free_for (f : gmap string node) (folder name : string) : Prop :=
  f !! folder <> Some NotDir
  /\ forall entries, f !! folder = Some (Dir entries) ->
                     find_entry name entries <> Some SubDir.



(** The calls of generate_checkpoint_folder once its reads of the
    configuration have succeeded. *)
Definition folder_calls (base p : string) : M string :=
  bind (makedirs base) (fun _ =>
  bind (makedirs p) (fun _ =>
  bind (open_append p "experiment.log") (fun _ =>
  bind (modify (fun w => set_handlers (handlers w ++ [path_join p "experiment.log"])%list w))
       (fun _ =>
  bind (info (FolderCreated p)) (fun _ => ret p))))).


End Vocabulary.

(** ** The networks (Generator and Discriminator, lines 32-97), by shape

    What the two [nn.Sequential] stacks do to the shape of a batch.  A
    shape is the list of the sizes of a tensor.  The convolutions and the
    batch normalisation take a batch [N, C, H, W] of positive sizes, and
    [None] is then an error torch raises (a channel count that does not
    match, a kernel larger than the padded input, a single value per channel
    under batch normalisation in training mode); other inputs to these
    layers are outside the model and give [None] as well. *)













(** ** Further vocabulary of the properties *)








Section Vocabulary2.
Context `{Torch}.


(** An event of a wandb run other than its start and its end. *)
Definition run_event (e : wandb_event) : bool :=
  match e with
  | WInit _ _ | WFinish => false
  | _ => true
  end.


(** What no step of the two networks touches. *)
Definition same_outside (w w' : world) : Prop :=
  fs w' = fs w /\ ticks w' = ticks w /\ handlers w' = handlers w
  /\ logged w' = logged w /\ wandb_run w' = wandb_run w /\ wandb w' = wandb w.

(** A computation that leaves the wandb run and its log alone, and one
    that only adds events of a run in progress. *)
Definition silent {A} (m : M A) : Prop :=
  forall w, wandb (snd (m w)) = wandb w /\ wandb_run (snd (m w)) = wandb_run w.

Definition reports {A} (m : M A) : Prop :=
  forall w, exists evs,
    wandb (snd (m w)) = (wandb w ++ evs)%list
    /\ List.forallb run_event evs = true
    /\ wandb_run (snd (m w)) = wandb_run w.

End Vocabulary2.

(** ** A small instance of the library, for the examples

    A tensor is a list of numbers, one per sample; parameters, buffers,
    gradients and optimizer states are numbers; the random generator is a
    counter. *)

Module Demo.

#[export] Instance types : TensorTypes :=
  {| tensor := list Z; weights := Z; stats := Z;
     gradient := Z; opt_state := Z; rng := nat |}.

Definition loss_of (p target : list Z) : Q :=
  inject_Z (List.fold_right Z.add 0
              (List.map (fun x => Z.abs (fst x - snd x)) (List.combine p target))).

Definition demo_batch_len (x : list Z) : nat := List.length x.
Definition demo_ones (n : nat) : list Z := List.repeat 1 n.
Definition demo_zeros (n : nat) : list Z := List.repeat 0 n.
Definition demo_randn (r : nat) (a b : value) : list Z * nat :=
  (List.repeat (Z.of_nat r) (Z.to_nat (default 0 (as_int a))), S r).
Definition demo_forward_train (m : module_id) (w s : Z) (x : list Z) : list Z * Z :=
  (List.map (Z.add w) x, s + 1).
Definition demo_forward_eval (m : module_id) (w s : Z) (x : list Z) : list Z :=
  List.map (Z.add w) x.
Definition demo_backprop (m : module_id) (t : tape) : Z :=
  match m with Gen => 1 | Disc => 2 end.
Definition demo_accumulate (g : option Z) (d : Z) : Z := default 0 g + d.
Definition demo_adam (o w : Z) (g : option Z) : Z * Z := (o + 1, w - default 0 g).
Definition demo_make_grid (x : list Z) : list Z := x.
Definition demo_clock (n : nat) : timestamp := Timestamp 2024 1 1 12 0 (n mod 60).
Definition demo_new_id (n : nat) : string := "run" +:+ pretty n.

#[export] Instance torch : @Torch types :=
  {| batch_len := demo_batch_len;
     ones := demo_ones;
     zeros := demo_zeros;
     randn := demo_randn;
     forward_train := demo_forward_train;
     forward_eval := demo_forward_eval;
     binary_cross_entropy := loss_of;
     backprop := demo_backprop;
     accumulate := demo_accumulate;
     adam := demo_adam;
     make_grid := demo_make_grid;
     clock := demo_clock;
     wandb_new_id := demo_new_id |}.

Definition fresh_net (w : Z) : net := Net w 0 None true.

(** A world as lines 309-312 leave it, with the given file system. *)
Definition world0 (files : gmap string node) : world :=
  World (fresh_net 10) (fresh_net 20) (Optimizer Gen 0) (Optimizer Disc 0)
    0%nat files 0%nat [] [] None [].

(** A world in the middle of a run, and a state as [save_checkpoint]
    pickles it there. *)
Definition saved_world : world :=
  World (Net 11 3 None true) (Net 21 6 None true)
    (Optimizer Gen 5) (Optimizer Disc 5) 0%nat ∅ 0%nat [] [] (Some "run7") [].

Definition saved (epoch global_step : Z) (c : config) : state_dict :=
  checkpoint_state saved_world epoch global_step c.

Definition full_config : config :=
  <["epochs" := VInt 2]>
  (<["checkpoint_interval" := VInt 1]>
  (<["num_eval_samples" := VInt 4]>
  (<["wandb_project" := VStr "dcgan"]>
  (demo_config 128)))).

(** A loader of [n] batches of the given sizes. *)
Definition loader (sizes : list nat) : dataloader_type :=
  fun r : nat => (List.map (fun n => List.repeat 1 n) sizes, S r).

(** A folder with one checkpoint. *)
Definition one_checkpoint : gmap string node :=
  {["run" := Dir [("ckpt_epoch_4_20240101_120000.pth", Pickle (saved 4 50 full_config))]]}.

(** A run that passes midnight: epochs 2, 5 and 1 as the folder lists
    them, epoch 5 saved after midnight. *)
Definition midnight_folder : list (string * file) :=
  [ (checkpoint_filename 2 (Timestamp 2024 1 1 23 59 58), Pickle (saved 2 30 full_config));
    (checkpoint_filename 5 (Timestamp 2024 1 2 0 1 30), Pickle (saved 5 60 full_config));
    (checkpoint_filename 1 (Timestamp 2024 1 1 23 30 0), Pickle (saved 1 20 full_config)) ].

(** Folders with a file that matches the pattern and has no number where
    the scan reads one. *)
Definition broken_folder : list (string * file) :=
  [ ("ckpt_epoch_3_20240101_120000.pth", Pickle (saved 3 40 full_config));
    ("ckpt_epoch_abc.pth", Other) ].

Definition unparsable_folder : list (string * file) :=
  [ ("ckpt_epoch_7_final.pth", Pickle (saved 7 80 full_config));
    ("config.yaml", Other) ].

(** [full_config] with a key whose value is [None]. *)
Definition tagged_config : config := <["tags" := VNone]> full_config.

Definition tagged_checkpoint : gmap string node :=
  {["run" := Dir [("ckpt_epoch_0_20240101_120000.pth", Pickle (saved 0 10 tagged_config))]]}.

(** The scenario of two epochs over ten batches, from an empty file
    system. *)
Definition ten_batches : dataloader_type := loader (List.repeat 4%nat 10).
Definition after_main : world := snd (main ten_batches full_config (world0 ∅)).
Definition run_folder : string :=
  "checkpoints/dcgan_lr0.0002_bs128_latent100_ngf64_ndf64_f15d013f".

(** The names in a folder, and the epoch and step of each pickled state. *)
Definition names_in (folder : string) (w : world) : list string :=
  match fs w !! folder with
  | Some (Dir entries) => List.map fst entries
  | _ => []
  end.

Definition counters_in (folder : string) (w : world) : list (option Z * option Z) :=
  match fs w !! folder with
  | Some (Dir entries) =>
      List.flat_map (fun e => match snd e with
                              | Pickle st => [(st_epoch st, st_global_step st)]
                              | _ => []
                              end) entries
  | _ => []
  end.

Definition gen_batch : tracked tensor :=
  @Tracked types tensor [9; 9] (@Through types Gen 10 0 (@Leaf types [0; 0])).
Definition real_batch : tensor := [5; 5].
Definition all_ones : tensor := [1; 1].
Definition all_zeros : tensor := [0; 0].

End Demo.

(** Further values for the examples. *)

Module DemoMore.
Import Demo.











End DemoMore.

(** A run that passes midnight: the library of [Demo] with a clock that
    reads 23:59:50, then 23:59:59, then 00:00:30 of the next day. *)
Module Midnight.
Import Demo.

Definition reading (n : nat) : timestamp :=
  match n with
  | O => Timestamp 2024 1 1 23 59 50
  | S O => Timestamp 2024 1 1 23 59 59
  | _ => Timestamp 2024 1 2 0 0 30
  end.

Definition torch : @Torch types :=
  {| batch_len := demo_batch_len;
     ones := demo_ones;
     zeros := demo_zeros;
     randn := demo_randn;
     forward_train := demo_forward_train;
     forward_eval := demo_forward_eval;
     binary_cross_entropy := loss_of;
     backprop := demo_backprop;
     accumulate := demo_accumulate;
     adam := demo_adam;
     make_grid := demo_make_grid;
     clock := reading;
     wandb_new_id := demo_new_id |}.

(** The world after a first run of [main], and after a second run that
    starts from it. *)
Definition first_run : world :=
  snd (main (H0 := torch) ten_batches full_config (world0 ∅)).

Definition second_run : world :=
  snd (main (H0 := torch) ten_batches full_config first_run).

(** The epoch and the step of the end-of-epoch events of a wandb log. *)
Definition steps_of_epochs (w : world) : list (Z * Z) :=
  List.flat_map (fun e => match e with
                          | WEpoch _ _ epoch step => [(epoch, step)]
                          | _ => []
                          end) (wandb w).

End Midnight.


(** * Properties *)

(** ** The models of the Python built-ins, on examples *)

Example split_demo :
  PyStr.split "_"%char "ckpt_epoch_5_20240102_000130.pth"
  = ["ckpt"; "epoch"; "5"; "20240102"; "000130.pth"].
Proof. reflexivity. Qed.

Example ckpt_key_demo : ckpt_key "ckpt_epoch_5_20240102_000130.pth" = Ok 130.
Proof. reflexivity. Qed.

Example python_int_demo :
  List.map PyStr.python_int
    [" 12"; "12 "; "+12"; "-12"; "1_2"; "0012"; "_12"; "12_"; "1__2"; ""; "+";
     "- 1"; "1 2"; "12."; "0x10"; "abc"]
  = [Some 12; Some 12; Some 12; Some (-12); Some 12; Some 12; None; None; None; None;
     None; None; None; None; None; None].
Proof. reflexivity. Qed.

Example hexdigest_abc :
  Sha256.hexdigest "abc"
  = "ba7816bf8f01cfea414140de5dae2223b00361a396177a9cb410ff61f20015ad".
Proof. vm_compute. reflexivity. Qed.

Example hexdigest_empty :
  Sha256.hexdigest ""
  = "e3b0c44298fc1c149afbf4c8996fb92427ae41e4649b934ca495991b7852b855".
Proof. vm_compute. reflexivity. Qed.

Example hexdigest_two_blocks :
  Sha256.hexdigest "abcdbcdecdefdefgefghfghighijhijkijkljklmklmnlmnomnopnopq"
  = "248d6a61d20638b8e5c026930c3e6039a33ce45964ff2167f6ecedd419db06c1".
Proof. vm_compute. reflexivity. Qed.

Example py_eq_demo :
  py_eq (VInt 1) (VFloat (PyFloat 1 "1.0")) = true
  /\ py_eq (VBool true) (VInt 1) = true
  /\ py_eq (VFloat float_0_0002) (VFloat float_0_0002) = true
  /\ py_eq (VFloat (PyFloat nan "nan")) (VFloat (PyFloat nan "nan")) = false
  /\ py_eq (VInt 3) (VFloat (PyFloat 2.5 "2.5")) = false
  /\ py_eq VNone (VInt 0) = false
  /\ py_eq (VList [VStr "a"; VInt 2]) (VList [VStr "a"; VFloat (PyFloat 2 "2.0")]) = true.
Proof. vm_compute. repeat split. Qed.

Example py_mod_demo :
  py_mod_is_zero 5 (VFloat (PyFloat 2.5 "2.5")) = Ok true
  /\ py_mod_is_zero 4 (VFloat (PyFloat 2.5 "2.5")) = Ok false
  /\ py_mod_is_zero 4 (VInt 0) = Raise ZeroDivisionError
  /\ py_mod_is_zero 4 (VInt (-2)) = Ok true
  /\ py_mod_is_zero 4 VNone = Raise TypeError.
Proof. vm_compute. repeat split. Qed.

Example py_str_demo :
  py_str (VList [VStr "its"; VInt (-3); VNone]) = "['its', -3, None]"
  /\ py_str (VFloat float_0_0002) = "0.0002"
  /\ py_str (VStr "a_b") = "a_b".
Proof. vm_compute. repeat split. Qed.

Example key_params_demo :
  key_params (demo_config 128) = Ok "0.0002_128_100_64_64".
Proof. vm_compute. reflexivity. Qed.

Example folder_name_demo :
  folder_name (demo_config 128)
  = Ok "dcgan_lr0.0002_bs128_latent100_ngf64_ndf64_f15d013f".
Proof. vm_compute. reflexivity. Qed.

Example checkpoint_filename_demo :
  checkpoint_filename 5 (Timestamp 2024 1 2 0 1 30)
  = "ckpt_epoch_5_20240102_000130.pth".
Proof. vm_compute. reflexivity. Qed.

(** ** [max] with a key *)

Section PyMaxFacts.
Context {A : Type} (key : A -> result Z).



Lemma max_loop_raises (l : list A) (best : A) (kbest : Z) (e : exn) :
  (forall y e', key y = Raise e' -> e' = e) ->
  Exists (fun y => raises (key y) = true) l ->
  max_loop key best kbest l = Raise e.
Proof.
  intros Honly. revert best kbest.
  induction l as [|y ys IH]; intros best kbest Hex.
  - inversion Hex.
  - simpl. destruct (key y) as [ky|e'] eqn:Ey; simpl.
    + inversion Hex as [? ? Hy|? ? Hys]; subst.
      * rewrite Ey in Hy. discriminate.
      * destruct (ky >? kbest); apply IH; exact Hys.
    + f_equal. eapply Honly; eassumption.
Qed.

(** One key that raises is enough for [max] to raise. *)
Lemma py_max_raises (l : list A) (e : exn) :
  (forall y e', key y = Raise e' -> e' = e) ->
  Exists (fun y => raises (key y) = true) l ->
  py_max key l = Raise e.
Proof.
  intros Honly Hex. destruct l as [|x xs]; [inversion Hex|]. simpl.
  destruct (key x) as [kx|e'] eqn:Ex; simpl.
  - inversion Hex as [? ? Hx|? ? Hxs]; subst.
    + rewrite Ex in Hx. discriminate.
    + apply max_loop_raises; assumption.
  - f_equal. eapply Honly; eassumption.
Qed.

End PyMaxFacts.

Lemma ckpt_key_only_value_error (f : string) (e : exn) :
  ckpt_key f = Raise e -> e = ValueError.
Proof.
  unfold ckpt_key, PyStr.int. destruct (PyStr.python_int _); congruence.
Qed.














Lemma ckpt_files_In (listing : list string) (f : string) :
  In f listing -> is_ckpt_file f = true -> In f (ckpt_files listing).
Proof. intros Hin Hf. unfold ckpt_files. apply List.filter_In. split; assumption. Qed.

(** ** Strings and the digest *)

Lemma length_app (s t : string) :
  String.length (s +:+ t) = (String.length s + String.length t)%nat.
Proof. induction s as [|c s IH]; simpl; [reflexivity | f_equal; exact IH]. Qed.

Lemma append_nil (t : string) : "" +:+ t = t.
Proof. reflexivity. Qed.

Lemma app_inj_tail (a b s t : string) :
  a +:+ s = b +:+ t -> String.length s = String.length t -> a = b /\ s = t.
Proof.
  revert b. induction a as [|c a IH]; intros [|d b] E Hlen; simpl in E.
  - split; [reflexivity | exact E].
  - exfalso. apply (f_equal String.length) in E. rewrite !length_app in E. simpl in E. lia.
  - exfalso. apply (f_equal String.length) in E. rewrite !length_app in E. simpl in E. lia.
  - injection E as -> E. destruct (IH b E Hlen) as [-> ->]. split; reflexivity.
Qed.

Lemma app_inv_tail (a b s : string) : a +:+ s = b +:+ s -> a = b.
Proof. intros E. apply (app_inj_tail a b s s E eq_refl). Qed.

Lemma length_substring (n : nat) (s : string) :
  (n <= String.length s)%nat -> String.length (String.substring 0 n s) = n.
Proof.
  revert s. induction n as [|n IH]; intros [|c s] Hn; simpl in *; try reflexivity; try lia.
  rewrite IH by lia. reflexivity.
Qed.

Module Sha256Facts.
Import Sha256.

Lemma length_round (st : list Z) (k w : Z) : List.length (round st k w) = List.length st.
Proof.
  unfold round.
  destruct st as [|a [|b [|c [|d [|e [|f [|g [|h [|i rest]]]]]]]]]; reflexivity.
Qed.

Lemma length_rounds (ks win st : list Z) :
  List.length (rounds ks win st) = List.length st.
Proof.
  revert win st. induction ks as [|k ks IH]; intros win st; cbn [rounds].
  - reflexivity.
  - rewrite IH. apply length_round.
Qed.

Lemma length_compress (h block : list Z) :
  List.length (compress h block) = List.length h.
Proof.
  unfold compress. rewrite List.length_map, List.length_combine, length_rounds. lia.
Qed.

Lemma length_blocks (n : nat) (bs h : list Z) :
  List.length (blocks n bs h) = List.length h.
Proof.
  revert bs h. induction n as [|n IH]; intros bs h; cbn [blocks].
  - reflexivity.
  - rewrite IH. apply length_compress.
Qed.

Lemma length_hex_of (n : nat) (x : Z) : String.length (hex_of n x) = n.
Proof. induction n as [|n IH]; simpl; [reflexivity | rewrite IH; reflexivity]. Qed.

Lemma length_H0 : List.length H0 = 8%nat.
Proof. vm_compute. reflexivity. Qed.

(** A digest has 64 hexadecimal digits. *)
Lemma length_hexdigest (s : string) : String.length (hexdigest s) = 64%nat.
Proof.
  unfold hexdigest, digest_words.
  pose proof (length_blocks (List.length (pad (bytes_of s)) / 64) (pad (bytes_of s)) H0) as Hl.
  rewrite length_H0 in Hl.
  destruct (blocks _ _ H0) as [|a [|b [|c [|d [|e [|f [|g [|h [|i rest]]]]]]]]];
    try discriminate Hl.
  cbn [List.fold_right]. rewrite !length_app, !length_hex_of. reflexivity.
Qed.

End Sha256Facts.

Lemma length_config_hash_of (kp : string) : String.length (config_hash_of kp) = 8%nat.
Proof.
  unfold config_hash_of. apply length_substring.
  rewrite Sha256Facts.length_hexdigest. lia.
Qed.

Lemma key_params_of_one_changed (a1 a2 a3 a4 a5 b1 b2 b3 b4 b5 : string) :
  one_text_changed (a1, a2, a3, a4, a5) (b1, b2, b3, b4, b5) ->
  key_params_of a1 a2 a3 a4 a5 <> key_params_of b1 b2 b3 b4 b5.
Proof.
  unfold one_text_changed, key_params_of.
  intros [(N & -> & -> & -> & ->) | [(-> & N & -> & -> & ->) | [(-> & -> & N & -> & ->)
         | [(-> & -> & -> & N & ->) | (-> & -> & -> & -> & N)]]]] E; apply N.
  - apply app_inv_tail in E. exact E.
  - apply String.app_inj in E; injection E as E; rewrite !append_nil in E.
    apply app_inv_tail in E. exact E.
  - do 2 (apply String.app_inj in E; injection E as E; rewrite !append_nil in E).
    apply app_inv_tail in E. exact E.
  - do 3 (apply String.app_inj in E; injection E as E; rewrite !append_nil in E).
    apply app_inv_tail in E. exact E.
  - do 4 (apply String.app_inj in E; injection E as E; rewrite !append_nil in E).
    exact E.
Qed.

Lemma folder_name_of_one_changed
  (a1 a2 a3 a4 a5 b1 b2 b3 b4 b5 h1 h2 : string) :
  one_text_changed (a1, a2, a3, a4, a5) (b1, b2, b3, b4, b5) ->
  String.length h1 = String.length h2 ->
  folder_name_of a1 a2 a3 a4 a5 h1 <> folder_name_of b1 b2 b3 b4 b5 h2.
Proof.
  unfold one_text_changed, folder_name_of.
  intros [(N & -> & -> & -> & ->) | [(-> & N & -> & -> & ->) | [(-> & -> & N & -> & ->)
         | [(-> & -> & -> & N & ->) | (-> & -> & -> & -> & N)]]]] Hlen E; apply N.
  - apply String.app_inj in E.
    apply app_inj_tail in E; [tauto|]. rewrite !length_app. simpl. lia.
  - do 3 apply String.app_inj in E.
    apply app_inj_tail in E; [tauto|]. rewrite !length_app. simpl. lia.
  - do 5 apply String.app_inj in E.
    apply app_inj_tail in E; [tauto|]. rewrite !length_app. simpl. lia.
  - do 7 apply String.app_inj in E.
    apply app_inj_tail in E; [tauto|]. rewrite !length_app. simpl. lia.
  - do 9 apply String.app_inj in E.
    apply app_inj_tail in E; [tauto|]. rewrite !length_app. simpl. lia.
Qed.

Lemma hyper_texts_ext (c1 c2 : config) :
  (forall k, In k hyper_keys -> c1 !! k = c2 !! k) ->
  hyper_texts c1 = hyper_texts c2.
Proof.
  intros Hk. unfold hyper_texts, getitem.
  rewrite (Hk "lr"), (Hk "batch_size"), (Hk "latent_dim"), (Hk "ngf"), (Hk "ndf");
    [reflexivity | | | | |]; unfold hyper_keys; simpl; tauto.
Qed.

(** C8, as amended.  The fingerprint and the folder name are functions of
    the values of the five hyperparameters: configurations that agree on
    them get the same fingerprint and the same folder name.  When the
    rendered text of exactly one of the five changes, the hashed key string
    and the folder name change; the fingerprint, eight hexadecimal digits
    of a SHA-256, is not claimed to. *)
Theorem fingerprint_follows_the_texts (c1 c2 : config) :
  ((forall k, In k hyper_keys -> c1 !! k = c2 !! k) ->
   config_hash c1 = config_hash c2 /\ folder_name c1 = folder_name c2)
  /\ (forall t1 t2,
        hyper_texts c1 = Ok t1 -> hyper_texts c2 = Ok t2 ->
        one_text_changed t1 t2 ->
        key_params c1 <> key_params c2 /\ folder_name c1 <> folder_name c2).
Proof.
  split.
  - intros Hk. unfold config_hash, key_params, folder_name.
    rewrite (hyper_texts_ext c1 c2 Hk). split; reflexivity.
  - intros [[[[a1 a2] a3] a4] a5] [[[[b1 b2] b3] b4] b5] H1 H2 Hch.
    unfold key_params, folder_name. rewrite H1, H2. cbn [rbind]. split; intros E.
    + pose proof (key_params_of_one_changed _ _ _ _ _ _ _ _ _ _ Hch) as N. congruence.
    + assert (Hlen : String.length (config_hash_of (key_params_of a1 a2 a3 a4 a5))
                     = String.length (config_hash_of (key_params_of b1 b2 b3 b4 b5))).
      { rewrite !length_config_hash_of. reflexivity. }
      pose proof (folder_name_of_one_changed _ _ _ _ _ _ _ _ _ _ _ _ Hch Hlen) as N.
      congruence.
Qed.

Lemma path_join_longer (base name : string) :
  name <> "" -> PyStr.startswith name "/" = false ->
  base <> "" -> path_join base name <> base.
Proof.
  intros Hn Hs Hb E. unfold path_join in E. rewrite Hs in E.
  destruct (String.eqb_spec base ""); [contradiction|].
  apply (f_equal String.length) in E.
  destruct name as [|c name]; [contradiction|].
  destruct (PyStr.endswith base "/"); rewrite !length_app in E; simpl in E; lia.
Qed.

Lemma folder_path_of_ne_base (base : string) t :
  base <> "" -> folder_path_of base t <> base.
Proof.
  destruct t as [[[[lr bs] latent] ngf] ndf]. intros Hb.
  apply path_join_longer; [discriminate | reflexivity | exact Hb].
Qed.

Lemma folder_path_of_nonempty (base : string) t : folder_path_of base t <> "".
Proof.
  destruct t as [[[[lr bs] latent] ngf] ndf]. unfold folder_path_of, path_join.
  change (PyStr.startswith (folder_name_of lr bs latent ngf ndf
            (config_hash_of (key_params_of lr bs latent ngf ndf))) "/") with false.
  cbn match. destruct (String.eqb_spec base "") as [->|Hb]; [discriminate|].
  destruct base as [|ch base]; [contradiction|].
  destruct (PyStr.endswith _ "/"); discriminate.
Qed.

(** ** The checkpoint store *)

Section StoreFacts.
Context `{Torch}.

(** C4, as amended.  A file that matches [ckpt_epoch_*.pth] and whose
    field after the last underscore, up to the first dot, is not an integer
    literal makes the scan of load_checkpoint raise ValueError: the entry
    is not skipped, the world is left as it was and no resume state is
    returned. *)
Theorem load_checkpoint_unparsable_name_raises
  (w : world) (folder : string) (cfg : config)
  (entries : list (string * file)) (f : string) :
  fs w !! folder = Some (Dir entries) ->
  In f (List.map fst entries) ->
  is_ckpt_file f = true ->
  ckpt_key f = Raise ValueError ->
  load_checkpoint folder cfg w = (Raise ValueError, w).
Proof.
  intros Hdir Hin Hf Hkey.
  assert (Hex : Exists (fun y => raises (ckpt_key y) = true)
                       (ckpt_files (List.map fst entries))).
  { apply List.Exists_exists. exists f. split.
    - apply ckpt_files_In; assumption.
    - rewrite Hkey. reflexivity. }
  assert (Hmax : latest_ckpt (ckpt_files (List.map fst entries)) = Raise ValueError).
  { apply py_max_raises; [apply ckpt_key_only_value_error | exact Hex]. }
  unfold load_checkpoint, bind, listdir. rewrite Hdir.
  destruct (ckpt_files (List.map fst entries)) as [|x xs] eqn:E.
  - inversion Hex.
  - unfold lift. rewrite Hmax. reflexivity.
Qed.




(** C1.  When the configuration stored in the checkpoint that
    load_checkpoint selects equals the current configuration, the
    parameters and buffers of the generator and of the discriminator and
    the states of both optimizers become those of the checkpoint, and the
    call returns the stored epoch plus one, the stored global step and the
    stored run id. *)
Theorem load_checkpoint_accepts
  (w w0 : world) (folder : string) (cfg c : config)
  (entries : list (string * file)) (f : string) (epoch gs : Z) :
  fs w !! folder = Some (Dir entries) ->
  latest_ckpt (ckpt_files (List.map fst entries)) = Ok f ->
  find_entry f entries = Some (Pickle (checkpoint_state w0 epoch gs c)) ->
  dict_eq c cfg = true ->
  exists w',
    load_checkpoint folder cfg w = (Ok (epoch + 1, gs, wandb_run w0), w')
    /\ module_state (generator w') = module_state (generator w0)
    /\ module_state (discriminator w') = module_state (discriminator w0)
    /\ opt_data (optimizer_g w') = opt_data (optimizer_g w0)
    /\ opt_data (optimizer_d w') = opt_data (optimizer_d w0)
    /\ logged w' = (logged w ++ [CheckpointLoaded (path_join folder f) (epoch + 1) gs])%list
    /\ fs w' = fs w.
Proof.
  intros Hdir Hmax Hfind Heq.
  unfold load_checkpoint, bind, listdir. rewrite Hdir.
  destruct (ckpt_files (List.map fst entries)) as [|x xs] eqn:E.
  - discriminate Hmax.
  - unfold lift at 1. rewrite Hmax.
    unfold torch_load. cbn [fs]. rewrite Hdir, Hfind.
    cbn [st_config checkpoint_state default from_option id]. unfold dict_ne. rewrite Heq.
    cbn. eexists. split; [reflexivity|]. cbn. repeat split.
Qed.




End StoreFacts.

(** ** The training loop *)

Ltac open_world w :=
  destruct w as [[wg sg gg tg] [wd sd gd td] [tog sog] [tod sod] r f t h l wr wl];
  cbn in *; subst.

Ltac unfold_steps :=
  unfold generator_step, discriminator_step, bind, zero_grad, modify, lift,
    draw_randn, call, backward, backward_into, step, ret, bce, half_sum, leaf, detach.

Section TrainFacts.
Context `{Torch}.

(** C6.  With the optimizers bound as lines 311-312 bind them, the
    generator step (lines 216-221) leaves the parameters of the
    discriminator and its optimizer as they were, whatever the outcome of
    the step; the discriminator step (lines 226-231) returns a loss whose
    history does not reach the generator, the fake batch entering it
    detached, and leaves the generator, its gradient included, and its
    optimizer as they were. *)
Theorem steps_update_their_own_module
  (c : config) (imgs valid fake : tensor) (gen_imgs : tracked tensor) (w : world) :
  opt_target (optimizer_g w) = Gen ->
  opt_target (optimizer_d w) = Disc ->
  (net_weights (discriminator (snd (generator_step c (batch_len imgs) valid w)))
   = net_weights (discriminator w)
   /\ optimizer_d (snd (generator_step c (batch_len imgs) valid w)) = optimizer_d w)
  /\ (exists d_loss w',
        discriminator_step imgs gen_imgs valid fake w = (Ok d_loss, w')
        /\ reaches Gen (hist d_loss) = false
        /\ generator w' = generator w
        /\ optimizer_g w' = optimizer_g w).
Proof.
  intros Hg Hd. open_world w. split.
  - unfold_steps. unfold getitem. destruct (c !! "latent_dim"); cbn.
    + destruct tg, td; cbn; split; reflexivity.
    + split; reflexivity.
  - unfold_steps. cbn. destruct td; cbn.
    + eexists _, _. split; [reflexivity|]. cbn. repeat split.
    + eexists _, _. split; [reflexivity|]. cbn. repeat split.
Qed.

(** The loss of the generator step, by contrast, reaches both modules: its
    backward pass writes the gradient of the discriminator too, which the
    discriminator step clears before its own. *)
Lemma generator_loss_reaches_both (valid : tensor)
  (wg wd : weights) (sg sd : stats) (noise : tensor) :
  let gen_imgs := Through Gen wg sg (Leaf noise) in
  let g_loss := BceOf (Through Disc wd sd gen_imgs) valid in
  reaches Gen g_loss = true /\ reaches Disc g_loss = true.
Proof. split; reflexivity. Qed.

(** C7.  In training mode the loss of the discriminator step is half the
    sum of the binary cross-entropy of the discriminator on the real batch
    against the all-ones target and of the discriminator on the detached
    synthetic batch against the all-zeros target. *)
Theorem discriminator_loss_is_mean
  (imgs : tensor) (gen_imgs : tracked tensor) (w : world) :
  net_training (discriminator w) = true ->
  let valid := ones (batch_len imgs) in
  let fake := zeros (batch_len imgs) in
  let wd := net_weights (discriminator w) in
  let on_real := forward_train Disc wd (net_stats (discriminator w)) imgs in
  let on_fake := forward_train Disc wd (snd on_real) (data gen_imgs) in
  let real_loss := binary_cross_entropy (fst on_real) valid in
  let fake_loss := binary_cross_entropy (fst on_fake) fake in
  exists d_loss w',
    discriminator_step imgs gen_imgs valid fake w = (Ok d_loss, w')
    /\ (data d_loss == (1 # 2) * (real_loss + fake_loss))%Q
    /\ hist d_loss
       = Mean2 (BceOf (Through Disc wd (net_stats (discriminator w)) (Leaf imgs)) valid)
               (BceOf (Through Disc wd (snd on_real) (Leaf (data gen_imgs))) fake).
Proof.
  intros Ht. destruct w as [g d og od ? ? ? ? ? ? ?].
  destruct d as [wd sd gd td]. cbn in Ht. subst td.
  destruct od as [tod sod]. destruct tod; cbn.
  - unfold_steps. cbn. eexists _, _. split; [reflexivity|]. cbn. split; [|reflexivity].
    unfold Qdiv. rewrite Qmult_comm. reflexivity.
  - unfold_steps. cbn. eexists _, _. split; [reflexivity|]. cbn. split; [|reflexivity].
    unfold Qdiv. rewrite Qmult_comm. reflexivity.
Qed.



(** One batch: whatever its size, the two counters advance by one. *)
Lemma train_batch_counts (c : config) (epoch i : Z) (imgs : tensor) (k k' : counters)
  (w w' : world) :
  train_batch c epoch i imgs k w = (Ok k', w') ->
  global_step k' = global_step k + 1 /\ n_batches k' = n_batches k + 1.
Proof.
  unfold train_batch, bind.
  destruct (generator_step _ _ _ w) as [[[gen_imgs g_loss]|e] w1]; [|discriminate].
  destruct (discriminator_step _ _ _ _ w1) as [[d_loss|e] w2]; [|discriminate].
  unfold lift. destruct (log_due c i) as [[|]|e]; cbn; intros E; inversion E; subst;
    cbn; split; reflexivity.
Qed.


Lemma train_batches_counts (c : config) (epoch : Z) (batches : list tensor) :
  forall (i : Z) (k k' : counters) (w w' : world),
  train_batches c epoch i batches k w = (Ok k', w') ->
  global_step k' = global_step k + Z.of_nat (List.length batches)
  /\ n_batches k' = n_batches k + Z.of_nat (List.length batches).
Proof.
  induction batches as [|imgs rest IH]; intros i k k' w w'; cbn [train_batches].
  - unfold ret. intros E. inversion E; subst. cbn. lia.
  - unfold bind at 1.
    destruct (train_batch c epoch i imgs k w) as [[k1|e] w1] eqn:E1; [|discriminate].
    intros E2. apply train_batch_counts in E1. apply IH in E2.
    cbn [List.length]. lia.
Qed.


Lemma py_div_ok (total : Q) (n : Z) :
  n <> 0 -> py_div total n = Ok (total / inject_Z n)%Q.
Proof. intros Hn. unfold py_div. destruct (Z.eqb_spec n 0); [contradiction | reflexivity]. Qed.


(** C10.  With the key [epochs] in the configuration, train_epoch on a data
    loader that yields no batch raises ZeroDivisionError at the averages
    instead of returning; and when the loop has run over a pass that is
    not empty, [n_batches] is its length and both divisions are defined. *)
Theorem train_epoch_needs_a_batch (dataloader : dataloader_type) (c : config)
  (epoch step0 : Z) (w : world) :
  is_Some (c !! "epochs") ->
  (fst (dataloader (torch_rng w)) = [] ->
   fst (train_epoch dataloader c epoch step0 w) = Raise ZeroDivisionError)
  /\ (forall (batches : list tensor) (i : Z) (k : counters) (w1 w2 : world),
        batches <> [] ->
        train_batches c epoch i batches (Counters 0 0 0 step0) w1 = (Ok k, w2) ->
        n_batches k = Z.of_nat (List.length batches)
        /\ py_div (total_g_loss k) (n_batches k)
           = Ok (total_g_loss k / inject_Z (n_batches k))%Q
        /\ py_div (total_d_loss k) (n_batches k)
           = Ok (total_d_loss k / inject_Z (n_batches k))%Q).
Proof.
  intros [e He]. split.
  - intros Hnil.
    unfold train_epoch. unfold bind at 1. unfold set_training at 1, modify.
    unfold bind at 1. unfold set_training at 1, modify.
    unfold bind at 1. unfold lift at 1, getitem. rewrite He.
    unfold bind at 1. unfold iterate.
    set (w1 := set_net Disc _ (set_net Gen _ w)).
    assert (Hr : torch_rng w1 = torch_rng w) by (subst w1; destruct w; reflexivity).
    rewrite Hr, Hnil. reflexivity.
  - intros batches i k w1 w2 Hne E.
    destruct (train_batches_counts _ _ _ _ _ _ _ _ E) as [_ Hn]. cbn in Hn.
    assert (Hpos : n_batches k <> 0).
    { rewrite Hn. destruct batches; [congruence | cbn; lia]. }
    split; [exact Hn|]. split; apply py_div_ok; exact Hpos.
Qed.









End TrainFacts.

(** ** The checkpoint folder *)

Section FolderFacts.
Context `{Torch}.

Lemma makedirs_spec (path : string) (w : world) :
  match makedirs path w with
  | (Ok _, w') =>
      path <> "" /\ is_dir (fs w') path
      /\ (forall q, q <> path -> fs w' !! q = fs w !! q)
      /\ (fs w !! path = None -> fs w' !! path = Some (Dir []))
      /\ (is_dir (fs w) path -> w' = w)
      /\ handlers w' = handlers w
  | (Raise _, w') => path = "" \/ fs w !! path = Some NotDir
  end.
Proof.
  unfold makedirs. destruct (String.eqb_spec path ""); [left; assumption|].
  destruct (fs w !! path) as [[entries|]|] eqn:E.
  - split; [assumption|]. split; [exists entries; exact E|]. split; [reflexivity|].
    split; [congruence|]. split; reflexivity.
  - right. reflexivity.
  - destruct w; cbn in *. split; [assumption|].
    split; [exists []; apply lookup_insert_eq|].
    split; [intros q Hq; apply lookup_insert_ne; congruence|].
    split; [intros _; apply lookup_insert_eq|].
    split; [intros [es Hes]; congruence | reflexivity].
Qed.

Lemma find_entry_app_new (name : string) (x : file) (entries : list (string * file)) :
  find_entry name entries = None ->
  find_entry name (entries ++ [(name, x)])%list = Some x.
Proof.
  unfold find_entry. induction entries as [|[n g] rest IH]; cbn.
  - rewrite String.eqb_refl. reflexivity.
  - destruct (String.eqb n name); [discriminate | exact IH].
Qed.

Lemma open_append_spec (folder name : string) (w : world) :
  match open_append folder name w with
  | (Ok _, w') =>
      has_file (fs w') folder name
      /\ (forall q, q <> folder -> fs w' !! q = fs w !! q)
      /\ (has_file (fs w) folder name -> w' = w)
      /\ handlers w' = handlers w
  | (Raise _, w') => ~ is_dir (fs w) folder \/ ~ free_for (fs w) folder name
  end.
Proof.
  unfold open_append. destruct (fs w !! folder) as [[entries|]|] eqn:E.
  - destruct (find_entry name entries) as [[st| |]|] eqn:F.
    + split; [exists entries, (Pickle st); repeat split; [assumption..|discriminate]|].
      split; [reflexivity|]. split; reflexivity.
    + right. intros [_ Hfree]. apply (Hfree entries E). exact F.
    + split; [exists entries, Other; repeat split; [assumption..|discriminate]|].
      split; [reflexivity|]. split; reflexivity.
    + destruct w; cbn in *.
      split; [exists (entries ++ [(name, Other)])%list, Other; split;
              [apply lookup_insert_eq | split; [apply find_entry_app_new; exact F | discriminate]]|].
      split; [intros q Hq; apply lookup_insert_ne; congruence|].
      split; [|reflexivity].
      intros (es & x & Hes & Hx & _). congruence.
  - left. intros [es Hes]. congruence.
  - left. intros [es Hes]. congruence.
Qed.

(** generate_checkpoint_folder reads the configuration, then makes its
    calls. *)
Lemma generate_checkpoint_folder_reads (c : config) (w : world) :
  match hyper_texts c, checkpoint_dir c with
  | Ok t, Ok base =>
      generate_checkpoint_folder c w = folder_calls base (folder_path_of base t) w
  | _, _ => exists e, generate_checkpoint_folder c w = (Raise e, w)
  end.
Proof.
  unfold generate_checkpoint_folder, key_params, folder_calls, bind, lift.
  destruct (hyper_texts c) as [[[[[lr bs] latent] ngf] ndf]|e] eqn:Ht; cbn [rbind].
  - destruct (checkpoint_dir c) as [base|e']; [reflexivity | eexists; reflexivity].
  - eexists; reflexivity.
Qed.

Lemma has_file_is_dir (f : gmap string node) (folder name : string) :
  has_file f folder name -> is_dir f folder.
Proof. intros (es & x & Hes & _). exists es. exact Hes. Qed.

Lemma folder_calls_fresh (base p : string) (w : world) :
  base <> "" -> p <> "" -> p <> base ->
  fs w !! base <> Some NotDir ->
  free_for (fs w) p "experiment.log" ->
  exists w1, folder_calls base p w = (Ok p, w1).
Proof.
  intros Hb Hp0 Hp Hbase [Hnd Hfree]. unfold folder_calls. unfold bind at 1.
  pose proof (makedirs_spec base w) as Sa.
  destruct (makedirs base w) as [[[]|e] wa]; [|destruct Sa; contradiction].
  destruct Sa as (_ & Hda & Hoa & _ & _ & _).
  unfold bind at 1.
  pose proof (makedirs_spec p wa) as Sb.
  assert (Hpa : fs wa !! p = fs w !! p) by (apply Hoa; exact Hp).
  destruct (makedirs p wa) as [[[]|e] wb].
  2:{ destruct Sb as [Sb|Sb]; [contradiction|]. rewrite Hpa in Sb. contradiction. }
  destruct Sb as (_ & Hdb & Hob & Hnew & Hsame & _).
  unfold bind at 1.
  pose proof (open_append_spec p "experiment.log" wb) as Sc.
  destruct (open_append p "experiment.log" wb) as [[[]|e] wc].
  2:{ exfalso. destruct Sc as [Sc|Sc]; [apply Sc; exact Hdb|]. apply Sc. split.
      - destruct Hdb as [es Hes]. congruence.
      - intros es Hes.
        assert (Hcase : is_dir (fs wa) p \/ fs wa !! p = None).
        { rewrite Hpa. destruct (fs w !! p) as [[es'|]|];
            [left; exists es'; exact Hpa | contradiction | right; reflexivity]. }
        destruct Hcase as [Hd|Hn].
        + rewrite (Hsame Hd) in Hes. apply (Hfree es). congruence.
        + rewrite (Hnew Hn) in Hes. injection Hes as <-. discriminate. }
  unfold bind, modify, info, ret. eexists. reflexivity.
Qed.

Lemma folder_calls_again (base p : string) (w : world) :
  base <> "" -> p <> "" ->
  is_dir (fs w) base -> has_file (fs w) p "experiment.log" ->
  exists w', folder_calls base p w = (Ok p, w') /\ fs w' = fs w.
Proof.
  intros Hb Hp Hd Hf. unfold folder_calls. unfold bind at 1.
  pose proof (makedirs_spec base w) as Sa.
  destruct (makedirs base w) as [[[]|e] wa].
  2:{ exfalso. destruct Sa as [Sa|Sa]; [contradiction|]. destruct Hd as [es Hes]. congruence. }
  destruct Sa as (_ & _ & _ & _ & Hsa & _). rewrite (Hsa Hd). clear Hsa wa.
  unfold bind at 1.
  pose proof (makedirs_spec p w) as Sb.
  destruct (makedirs p w) as [[[]|e] wb].
  2:{ exfalso. destruct Sb as [Sb|Sb]; [contradiction|].
      destruct (has_file_is_dir _ _ _ Hf) as [es Hes]. congruence. }
  destruct Sb as (_ & _ & _ & _ & Hsb & _). rewrite (Hsb (has_file_is_dir _ _ _ Hf)).
  clear Hsb wb. unfold bind at 1.
  pose proof (open_append_spec p "experiment.log" w) as Sc.
  destruct (open_append p "experiment.log" w) as [[[]|e] wc].
  2:{ exfalso. destruct Sc as [Sc|Sc]; apply Sc.
      - exact (has_file_is_dir _ _ _ Hf).
      - destruct Hf as (es & x & Hes & Hx & Hnx). split; [congruence|].
        intros es' Hes'. congruence. }
  destruct Sc as (_ & _ & Hsc & _). rewrite (Hsc Hf).
  unfold bind, modify, info, ret. eexists. split; [reflexivity|].
  destruct w; reflexivity.
Qed.

Lemma folder_calls_done (base p q : string) (w w1 : world) :
  folder_calls base p w = (Ok q, w1) ->
  q = p /\ base <> "" /\ p <> ""
  /\ is_dir (fs w1) base /\ has_file (fs w1) p "experiment.log".
Proof.
  unfold folder_calls. unfold bind at 1.
  pose proof (makedirs_spec base w) as Sa.
  destruct (makedirs base w) as [[[]|e] wa]; [|discriminate].
  destruct Sa as (Hb & Hda & _).
  unfold bind at 1.
  pose proof (makedirs_spec p wa) as Sb.
  destruct (makedirs p wa) as [[[]|e] wb]; [|discriminate].
  destruct Sb as (Hp & Hdb & Hob & _).
  unfold bind at 1.
  pose proof (open_append_spec p "experiment.log" wb) as Sc.
  destruct (open_append p "experiment.log" wb) as [[[]|e] wc]; [|discriminate].
  destruct Sc as (Hfc & Hoc & _).
  unfold bind, modify, info, ret. intros E. injection E as Eq Ew.
  assert (Hfs : fs w1 = fs wc) by (rewrite <- Ew; destruct wc; reflexivity).
  rewrite Hfs. subst q.
  split; [reflexivity|]. split; [exact Hb|]. split; [exact Hp|]. split; [|exact Hfc].
  destruct (decide (base = p)) as [->|Hne].
  - exact (has_file_is_dir _ _ _ Hfc).
  - destruct Hda as [es Hes]. exists es. rewrite Hoc, Hob by exact Hne. exact Hes.
Qed.

(** C9.  A call of generate_checkpoint_folder that returns a path leaves
    the world such that a second call with the same configuration returns
    the same path, without raising on the directories and the log file
    that now exist and without changing the file system.  The first call
    returns when the five hyperparameters are in the configuration, the
    base directory is a [str] that is not empty, and no file sits where
    a directory is wanted, nor a directory where the log file is. *)
Theorem generate_checkpoint_folder_twice (c : config) (w : world) :
  (forall p w1,
     generate_checkpoint_folder c w = (Ok p, w1) ->
     exists w2, generate_checkpoint_folder c w1 = (Ok p, w2) /\ fs w2 = fs w1)
  /\ (forall t base,
        hyper_texts c = Ok t -> checkpoint_dir c = Ok base -> base <> "" ->
        fs w !! base <> Some NotDir ->
        free_for (fs w) (folder_path_of base t) "experiment.log" ->
        exists w1 w2,
          generate_checkpoint_folder c w = (Ok (folder_path_of base t), w1)
          /\ generate_checkpoint_folder c w1 = (Ok (folder_path_of base t), w2)).
Proof.
  assert (Hagain : forall p w0 w1,
            generate_checkpoint_folder c w0 = (Ok p, w1) ->
            exists w2, generate_checkpoint_folder c w1 = (Ok p, w2) /\ fs w2 = fs w1).
  { intros p w0 w1 E.
    pose proof (generate_checkpoint_folder_reads c w0) as R0.
    pose proof (generate_checkpoint_folder_reads c w1) as R1.
    destruct (hyper_texts c) as [t|e]; [|destruct R0 as [e0 R0]; congruence].
    destruct (checkpoint_dir c) as [base|e]; [|destruct R0 as [e0 R0]; congruence].
    rewrite R0 in E. apply folder_calls_done in E.
    destruct E as (-> & Hb & Hp & Hd & Hf).
    rewrite R1. apply folder_calls_again; assumption. }
  split; [intros p w1; apply Hagain|].
  intros t base Ht Hc Hb Hbase Hfree.
  pose proof (generate_checkpoint_folder_reads c w) as R0.
  rewrite Ht, Hc in R0.
  destruct (folder_calls_fresh base (folder_path_of base t) w) as (w1 & E1); auto.
  { apply folder_path_of_nonempty. }
  { apply folder_path_of_ne_base. exact Hb. }
  rewrite <- R0 in E1.
  destruct (Hagain _ _ _ E1) as (w2 & E2 & _).
  exists w1, w2. split; assumption.
Qed.

End FolderFacts.

(** * Further properties of the code *)

(** ** The shapes through the networks *)












Ltac sizes := first [ lia | Z.div_mod_to_equations; lia ].






(** ** The fingerprint *)





(** ** Saving and loading *)

(** ** Names, entries and the scan *)






Section EntryFacts.
Context `{Torch}.






End EntryFacts.


(** ** [max] over a list whose last element has the greatest key *)

Section PyMaxLast.
Context {A : Type} (key : A -> result Z).



(** Of several elements with the greatest key, the first one is returned. *)
Lemma max_loop_keeps (l : list A) (best : A) (kbest : Z) :
  Forall (fun x => exists k, key x = Ok k /\ k <= kbest) l ->
  max_loop key best kbest l = Ok best.
Proof.
  induction l as [|x l IH]; intros Hall; cbn; [reflexivity|].
  inversion Hall as [|? ? (k & Hk & Hle) Hrest]; subst.
  rewrite Hk. cbn. destruct (Z.gtb_spec k kbest); [lia | apply IH; assumption].
Qed.

End PyMaxLast.






(** ** Loading, in general *)

Section StoreFacts2.
Context `{Torch}.









End StoreFacts2.

(** ** The scan over names that save_checkpoint wrote *)



(** ** The folder of a run *)

Section FolderFacts2.
Context `{Torch}.











End FolderFacts2.

(** ** Evaluation and the events of an epoch *)









Section TrainFacts2.
Context `{Torch}.

Lemma same_outside_refl (w : world) : same_outside w w.
Proof. repeat split. Qed.


Lemma generator_step_outside (c : config) (n : nat) (valid : tensor) (w : world) :
  same_outside w (snd (generator_step c n valid w)).
Proof.
  unfold same_outside. open_world w. unfold_steps. unfold getitem.
  destruct (c !! "latent_dim"), tog, tg, td; cbn; repeat split.
Qed.

Lemma discriminator_step_outside (imgs valid fake : tensor) (gen_imgs : tracked tensor)
  (w : world) :
  same_outside w (snd (discriminator_step imgs gen_imgs valid fake w)).
Proof.
  unfold same_outside. open_world w. unfold_steps.
  destruct tod, tg, td; cbn; repeat split.
Qed.










End TrainFacts2.

(** ** The wandb run and the loop of main *)

Create HintDb quiet.

Section QuietFacts.
Context `{Torch}.

Lemma silent_bind {A B} (m : M A) (k : A -> M B) :
  silent m -> (forall a, silent (k a)) -> silent (bind m k).
Proof.
  intros Hm Hk w. unfold bind. specialize (Hm w).
  destruct (m w) as [[a|e] w1]; cbn [snd] in *.
  - destruct Hm as [M1 M2]. destruct (Hk a w1) as [E1 E2]. split; congruence.
  - exact Hm.
Qed.

Lemma reports_bind {A B} (m : M A) (k : A -> M B) :
  reports m -> (forall a, reports (k a)) -> reports (bind m k).
Proof.
  intros Hm Hk w. unfold bind. destruct (Hm w) as (evs & E1 & F1 & R1).
  destruct (m w) as [[a|e] w1]; cbn [snd] in *.
  - destruct (Hk a w1) as (evs' & E2 & F2 & R2).
    exists (evs ++ evs')%list. rewrite E2, E1, List.app_assoc, List.forallb_app, F1, F2.
    repeat split. congruence.
  - exists evs. auto.
Qed.

Lemma silent_reports {A} (m : M A) : silent m -> reports m.
Proof.
  intros Hm w. destruct (Hm w) as [E R]. exists []. rewrite List.app_nil_r. auto.
Qed.

Lemma silent_ret {A} (a : A) : silent (ret a).
Proof. intros w. split; reflexivity. Qed.

Lemma silent_lift {A} (r : result A) : silent (lift r).
Proof. intros w. split; reflexivity. Qed.

Lemma silent_gets {A} (f : world -> A) : silent (gets f).
Proof. intros w. split; reflexivity. Qed.


Lemma silent_info (e : log_event) : silent (info e).
Proof. intros w. destruct w; split; reflexivity. Qed.

Lemma silent_warning (e : log_event) : silent (warning e).
Proof. apply silent_info. Qed.

Lemma silent_now : silent now.
Proof. intros w. destruct w; split; reflexivity. Qed.

Lemma silent_makedirs (p : string) : silent (makedirs p).
Proof.
  intros w. unfold makedirs. destruct (String.eqb p ""); [split; reflexivity|].
  destruct (fs w !! p) as [[|]|]; destruct w; split; reflexivity.
Qed.

Lemma silent_open_append (folder name : string) : silent (open_append folder name).
Proof.
  intros w. unfold open_append. destruct (fs w !! folder) as [[es|]|]; try (split; reflexivity).
  destruct (find_entry name es) as [[| |]|]; destruct w; split; reflexivity.
Qed.

Lemma silent_write_file (folder name : string) (f : file) : silent (write_file folder name f).
Proof.
  intros w. unfold write_file. destruct (fs w !! folder) as [[es|]|]; try (split; reflexivity).
  destruct (find_entry name es) as [[| |]|]; destruct w; split; reflexivity.
Qed.

Lemma silent_listdir (folder : string) : silent (listdir folder).
Proof.
  intros w. unfold listdir. destruct (fs w !! folder) as [[es|]|]; split; reflexivity.
Qed.

Lemma silent_torch_load (folder name : string) : silent (torch_load folder name).
Proof.
  intros w. unfold torch_load. destruct (fs w !! folder) as [[es|]|]; try (split; reflexivity).
  destruct (find_entry name es) as [[| |]|]; split; reflexivity.
Qed.

Lemma silent_path_exists (p : string) : silent (path_exists p).
Proof. apply silent_gets. Qed.

Lemma silent_load_module (m : module_id) (sd : weights * stats) : silent (load_module m sd).
Proof. intros w. destruct w, m; split; reflexivity. Qed.

Lemma silent_load_optimizer (o : opt_id) (sd : opt_state) : silent (load_optimizer o sd).
Proof. intros w. destruct w, o; split; reflexivity. Qed.

Lemma silent_require {A} (field : option A) (k : string) : silent (require field k).
Proof. destruct field; [apply silent_ret | apply silent_lift]. Qed.

Lemma silent_set_training (m : module_id) (b : bool) : silent (set_training m b).
Proof. intros w. destruct w, m; split; reflexivity. Qed.

Lemma silent_iterate (dataloader : dataloader_type) : silent (iterate dataloader).
Proof. intros w. destruct w; split; reflexivity. Qed.

Lemma silent_draw_randn (a b : value) : silent (draw_randn a b).
Proof. intros w. destruct w; split; reflexivity. Qed.

Lemma silent_call (m : module_id) (x : tracked tensor) : silent (call m x).
Proof.
  intros w. unfold call. destruct (net_training (get_net m w)); [|split; reflexivity].
  destruct w, m; split; reflexivity.
Qed.

Lemma silent_generator_step (c : config) (n : nat) (valid : tensor) :
  silent (generator_step c n valid).
Proof.
  intros w. destruct (generator_step_outside c n valid w) as (_ & _ & _ & _ & R & E).
  split; assumption.
Qed.

Lemma silent_discriminator_step (imgs valid fake : tensor) (gen_imgs : tracked tensor) :
  silent (discriminator_step imgs gen_imgs valid fake).
Proof.
  intros w.
  destruct (discriminator_step_outside imgs valid fake gen_imgs w) as (_ & _ & _ & _ & R & E).
  split; assumption.
Qed.

Lemma reports_wandb_emit (e : wandb_event) : run_event e = true -> reports (wandb_emit e).
Proof.
  intros He w. exists [e]. destruct w; cbn. rewrite He. repeat split.
Qed.

End QuietFacts.

#[local] Hint Resolve silent_bind silent_ret silent_lift silent_gets silent_info
  silent_warning silent_now silent_makedirs silent_open_append silent_write_file
  silent_listdir silent_torch_load silent_path_exists silent_load_module
  silent_load_optimizer silent_require silent_set_training silent_iterate
  silent_draw_randn silent_call silent_generator_step silent_discriminator_step
  : quiet.
#[local] Hint Resolve reports_bind reports_wandb_emit silent_reports : quiet.

Ltac quiet_step :=
  first [ solve [auto with quiet]
        | apply silent_bind; [|intros ?]
        | apply reports_bind; [|intros ?]
        | match goal with
          | |- silent (match ?x with _ => _ end) => destruct x
          | |- reports (match ?x with _ => _ end) => destruct x
          | |- silent (if ?x then _ else _) => destruct x
          | |- reports (if ?x then _ else _) => destruct x
          | |- silent (let '(_, _) := ?x in _) => destruct x
          | |- reports (let '(_, _) := ?x in _) => destruct x
          end
        | apply silent_reports ].

Ltac quiet := repeat quiet_step.

Section MainFacts.
Context `{Torch}.



















End MainFacts.


(** ** The program on concrete inputs *)

Import Demo.

(** The scenario of the specification: two epochs of ten batches end at
    step 20 with a checkpoint for epoch 0 at step 10 and one for epoch 1 at
    step 20; a second run under the same configuration resumes at epoch 2
    and step 20. *)
Example main_scenario :
  fst (main ten_batches full_config (world0 ∅)) = Ok tt
  /\ names_in run_folder after_main
     = ["experiment.log"; "ckpt_epoch_0_20240101_120001.pth"; "config.yaml";
        "ckpt_epoch_1_20240101_120002.pth"]
  /\ counters_in run_folder after_main
     = [(Some 0, Some 10); (Some 1, Some 20)]
  /\ fst (resume full_config run_folder after_main)
     = Ok (2, 20, Some "run1").
Proof. vm_compute. repeat split. Qed.

(** C3.  On a folder whose files follow the scheme of save_checkpoint,
    with epochs 2, 5 and 1, the file of epoch 5 written just after
    midnight, the selection takes the file of epoch 2: the key it compares
    is the time of day at the end of the name, not the epoch.  The run
    resumes at epoch 3 with the step stored at epoch 2. *)
Lemma latest_ckpt_takes_time_of_day :
  List.map fst midnight_folder
  = ["ckpt_epoch_2_20240101_235958.pth"; "ckpt_epoch_5_20240102_000130.pth";
     "ckpt_epoch_1_20240101_233000.pth"]
  /\ latest_ckpt (ckpt_files (List.map fst midnight_folder))
     = Ok "ckpt_epoch_2_20240101_235958.pth"
  /\ fst (load_checkpoint "run" full_config (world0 {["run" := Dir midnight_folder]}))
     = Ok (3, 30, Some "run7").
Proof. vm_compute. repeat split. Qed.

(** C5.  The step goes back across a resume.  A first run of two epochs
    of ten batches saves the checkpoint of epoch 0, at step 10, at
    23:59:59 and the checkpoint of epoch 1, at step 20, at 00:00:30 of the
    next day, and ends at step 20.  The selection of line 163 then takes
    the file of epoch 0, whose time of day is the greater, and the resume
    step of a second run under the same configuration returns epoch 1 and
    step 10: the second run counts the steps 10 to 19 again. *)
Lemma global_step_goes_back_on_resume :
  fst (main (H0 := Midnight.torch) ten_batches full_config (world0 ∅)) = Ok tt
  /\ names_in run_folder Midnight.first_run
     = ["experiment.log"; "ckpt_epoch_0_20240101_235959.pth"; "config.yaml";
        "ckpt_epoch_1_20240102_000030.pth"]
  /\ counters_in run_folder Midnight.first_run = [(Some 0, Some 10); (Some 1, Some 20)]
  /\ latest_ckpt (ckpt_files (names_in run_folder Midnight.first_run))
     = Ok "ckpt_epoch_0_20240101_235959.pth"
  /\ fst (resume full_config run_folder Midnight.first_run) = Ok (1, 10, Some "run1")
  /\ Midnight.steps_of_epochs Midnight.first_run = [(0, 10); (1, 20)]
  /\ fst (main (H0 := Midnight.torch) ten_batches full_config Midnight.first_run) = Ok tt
  /\ Midnight.steps_of_epochs Midnight.second_run = [(0, 10); (1, 20); (1, 20)].
Proof. vm_compute. repeat split. Qed.

(** C4, the claim as stated fails: with a well-formed checkpoint and a file
    [ckpt_epoch_abc.pth] in the folder, load_checkpoint raises ValueError
    and leaves the world as it was. *)
Lemma malformed_name_is_fatal :
  is_ckpt_file "ckpt_epoch_abc.pth" = true
  /\ load_checkpoint "run" full_config (world0 {["run" := Dir broken_folder]})
     = (Raise ValueError, world0 {["run" := Dir broken_folder]}).
Proof. vm_compute. split; reflexivity. Qed.

(** C2.  The stored configuration has the key [tags] with the value [None]
    and the current one does not have the key: the two dicts are unequal,
    the checkpoint is rejected with the fresh start, and the warnings name
    no key. *)
Lemma mismatch_on_none_value_names_no_key :
  tagged_config !! "tags" = Some VNone
  /\ full_config !! "tags" = None
  /\ dict_ne tagged_config full_config = true
  /\ fst (load_checkpoint "run" full_config (world0 tagged_checkpoint)) = Ok (0, 0, None)
  /\ logged (snd (load_checkpoint "run" full_config (world0 tagged_checkpoint)))
     = [ConfigDifferences; ConfigMismatch].
Proof. vm_compute. repeat split. Qed.

(** C8, the claim as stated fails: two configurations that differ in
    [batch_size] alone have the same fingerprint. *)
Lemma fingerprint_collision :
  demo_config 64337 !! "batch_size" <> demo_config 90863 !! "batch_size"
  /\ key_params (demo_config 64337) = Ok "0.0002_64337_100_64_64"
  /\ key_params (demo_config 90863) = Ok "0.0002_90863_100_64_64"
  /\ config_hash (demo_config 64337) = Ok "0e5b37e6"
  /\ config_hash (demo_config 90863) = Ok "0e5b37e6".
Proof. vm_compute. repeat split. intros E. discriminate E. Qed.

(** ** The theorems at concrete inputs *)

Lemma load_checkpoint_accepts_witness :
  fs (world0 one_checkpoint) !! "run"
  = Some (Dir [("ckpt_epoch_4_20240101_120000.pth", Pickle (saved 4 50 full_config))])
  /\ latest_ckpt (ckpt_files ["ckpt_epoch_4_20240101_120000.pth"])
     = Ok "ckpt_epoch_4_20240101_120000.pth"
  /\ dict_eq full_config full_config = true
  /\ exists w',
       load_checkpoint "run" full_config (world0 one_checkpoint)
       = (Ok (4 + 1, 50, Some "run7"), w')
       /\ module_state (generator w') = (11, 3)
       /\ module_state (discriminator w') = (21, 6)
       /\ opt_data (optimizer_g w') = 5
       /\ opt_data (optimizer_d w') = 5.
Proof.
  assert (H1 : fs (world0 one_checkpoint) !! "run"
               = Some (Dir [("ckpt_epoch_4_20240101_120000.pth",
                             Pickle (saved 4 50 full_config))])) by reflexivity.
  assert (H2 : latest_ckpt (ckpt_files ["ckpt_epoch_4_20240101_120000.pth"])
               = Ok "ckpt_epoch_4_20240101_120000.pth") by reflexivity.
  assert (H3 : dict_eq full_config full_config = true) by (vm_compute; reflexivity).
  split; [exact H1|]. split; [exact H2|]. split; [exact H3|].
  destruct (load_checkpoint_accepts (world0 one_checkpoint) saved_world
              "run" full_config full_config
              [("ckpt_epoch_4_20240101_120000.pth", Pickle (saved 4 50 full_config))]
              "ckpt_epoch_4_20240101_120000.pth" 4 50 H1 H2 eq_refl H3)
    as (w' & E & Hg & Hd & Hog & Hod & _).
  exists w'. split; [exact E|]. split; [exact Hg|]. split; [exact Hd|].
  split; [exact Hog | exact Hod].
Defined.

Lemma load_checkpoint_unparsable_name_raises_witness :
  fs (world0 {["run" := Dir unparsable_folder]}) !! "run" = Some (Dir unparsable_folder)
  /\ In "ckpt_epoch_7_final.pth" (List.map fst unparsable_folder)
  /\ is_ckpt_file "ckpt_epoch_7_final.pth" = true
  /\ ckpt_key "ckpt_epoch_7_final.pth" = Raise ValueError
  /\ load_checkpoint "run" full_config (world0 {["run" := Dir unparsable_folder]})
     = (Raise ValueError, world0 {["run" := Dir unparsable_folder]}).
Proof.
  assert (H1 : fs (world0 {["run" := Dir unparsable_folder]}) !! "run"
               = Some (Dir unparsable_folder)) by reflexivity.
  assert (H2 : In "ckpt_epoch_7_final.pth" (List.map fst unparsable_folder))
    by (simpl; tauto).
  assert (H3 : is_ckpt_file "ckpt_epoch_7_final.pth" = true) by reflexivity.
  assert (H4 : ckpt_key "ckpt_epoch_7_final.pth" = Raise ValueError) by reflexivity.
  split; [exact H1|]. split; [exact H2|]. split; [exact H3|]. split; [exact H4|].
  exact (load_checkpoint_unparsable_name_raises _ "run" full_config _ _ H1 H2 H3 H4).
Defined.




Lemma steps_update_their_own_module_witness :
  opt_target (optimizer_g (world0 ∅)) = Gen
  /\ opt_target (optimizer_d (world0 ∅)) = Disc
  /\ net_weights (discriminator (snd (generator_step full_config 2 all_ones (world0 ∅))))
     = 20
  /\ exists d_loss w',
       discriminator_step real_batch gen_batch all_ones all_zeros (world0 ∅)
       = (Ok d_loss, w')
       /\ reaches Gen (hist d_loss) = false
       /\ generator w' = generator (world0 ∅).
Proof.
  split; [reflexivity|]. split; [reflexivity|].
  destruct (steps_update_their_own_module full_config real_batch all_ones all_zeros
              gen_batch (world0 ∅) eq_refl eq_refl) as [[Hw _] (d & w' & E & Hr & Hg & _)].
  split; [exact Hw|]. exists d, w'.
  split; [exact E|]. split; [exact Hr | exact Hg].
Defined.

Lemma discriminator_loss_is_mean_witness :
  net_training (discriminator (world0 ∅)) = true
  /\ exists d_loss w',
       discriminator_step real_batch gen_batch (ones 2) (zeros 2) (world0 ∅)
       = (Ok d_loss, w')
       /\ (data d_loss == (1 # 2) * (inject_Z 48 + inject_Z 58))%Q.
Proof.
  split; [reflexivity|].
  destruct (discriminator_loss_is_mean real_batch gen_batch (world0 ∅) eq_refl)
    as (d & w' & E & Hd & _).
  exists d, w'. split; [exact E | exact Hd].
Defined.

Lemma fingerprint_follows_the_texts_witness :
  (forall k, In k hyper_keys ->
             demo_config 128 !! k = (<["epochs" := VInt 9]> (demo_config 128)) !! k)
  /\ config_hash (demo_config 128) = config_hash (<["epochs" := VInt 9]> (demo_config 128))
  /\ hyper_texts (demo_config 128) = Ok ("0.0002", "128", "100", "64", "64")
  /\ hyper_texts (demo_config 64) = Ok ("0.0002", "64", "100", "64", "64")
  /\ one_text_changed ("0.0002", "128", "100", "64", "64") ("0.0002", "64", "100", "64", "64")
  /\ folder_name (demo_config 128) <> folder_name (demo_config 64).
Proof.
  assert (H1 : forall k, In k hyper_keys ->
             demo_config 128 !! k = (<["epochs" := VInt 9]> (demo_config 128)) !! k).
  { intros k Hk. unfold hyper_keys in Hk. simpl in Hk.
    destruct Hk as [<-|[<-|[<-|[<-|[<-|[]]]]]]; reflexivity. }
  assert (H2 : hyper_texts (demo_config 128) = Ok ("0.0002", "128", "100", "64", "64"))
    by reflexivity.
  assert (H3 : hyper_texts (demo_config 64) = Ok ("0.0002", "64", "100", "64", "64"))
    by reflexivity.
  assert (H4 : one_text_changed ("0.0002", "128", "100", "64", "64")
                 ("0.0002", "64", "100", "64", "64")).
  { right. left. repeat split; discriminate. }
  split; [exact H1|].
  split; [exact (proj1 (proj1 (fingerprint_follows_the_texts _ _) H1))|].
  split; [exact H2|]. split; [exact H3|]. split; [exact H4|].
  exact (proj2 (proj2 (fingerprint_follows_the_texts _ _) _ _ H2 H3 H4)).
Defined.

Lemma generate_checkpoint_folder_twice_witness :
  hyper_texts (demo_config 128) = Ok ("0.0002", "128", "100", "64", "64")
  /\ checkpoint_dir (demo_config 128) = Ok "checkpoints"
  /\ "checkpoints" <> ""
  /\ fs (world0 ∅) !! "checkpoints" <> Some NotDir
  /\ free_for (fs (world0 ∅))
       (folder_path_of "checkpoints" ("0.0002", "128", "100", "64", "64")) "experiment.log"
  /\ exists w1 w2,
       generate_checkpoint_folder (demo_config 128) (world0 ∅)
       = (Ok (folder_path_of "checkpoints" ("0.0002", "128", "100", "64", "64")), w1)
       /\ generate_checkpoint_folder (demo_config 128) w1
          = (Ok (folder_path_of "checkpoints" ("0.0002", "128", "100", "64", "64")), w2).
Proof.
  assert (H1 : hyper_texts (demo_config 128) = Ok ("0.0002", "128", "100", "64", "64"))
    by reflexivity.
  assert (H2 : checkpoint_dir (demo_config 128) = Ok "checkpoints") by reflexivity.
  assert (H3 : "checkpoints" <> "") by discriminate.
  assert (H4 : fs (world0 ∅) !! "checkpoints" <> Some NotDir) by discriminate.
  assert (H5 : free_for (fs (world0 ∅))
                 (folder_path_of "checkpoints" ("0.0002", "128", "100", "64", "64"))
                 "experiment.log").
  { split; [discriminate|]. intros entries E. discriminate E. }
  split; [exact H1|]. split; [exact H2|]. split; [exact H3|]. split; [exact H4|].
  split; [exact H5|].
  exact (proj2 (generate_checkpoint_folder_twice (demo_config 128) (world0 ∅))
           _ _ H1 H2 H3 H4 H5).
Defined.

Lemma train_epoch_needs_a_batch_witness :
  is_Some (full_config !! "epochs")
  /\ fst (loader [] (torch_rng (world0 ∅))) = []
  /\ fst (train_epoch (loader []) full_config 0 0 (world0 ∅)) = Raise ZeroDivisionError.
Proof.
  assert (H1 : is_Some (full_config !! "epochs")) by (eexists; reflexivity).
  split; [exact H1|]. split; [reflexivity|].
  exact (proj1 (train_epoch_needs_a_batch (loader []) full_config 0 0 (world0 ∅) H1)
           eq_refl).
Defined.

(** ** The further properties at concrete inputs *)

Import DemoMore.




























